(** * Draft synchronisation and message gating of the WhatsApp assistant

    A shallow embedding of
    - the Gmail-to-database draft sync of [list_drafts_tool] and
      [select_draft_tool] (backend, [email_tool.py], as excerpted in
      [BIDIRECTIONAL_GMAIL_SYNC.md]), and
    - the message handler [handleMessage] of the frontend, in its two
      versions (with attachments and text only), with its access gate, the
      access list of [config/config.js], the backend client [api.js] and
      the start-up [main],
    followed by the properties the specification states about them and by
    further properties read off the code. *)

From Stdlib Require Import String Ascii List Bool ZArith Lia.
From stdpp Require Import gmap strings list.
Import ListNotations.

Local Open Scope list_scope.

(* ===================================================================== *)
(** * Part I: definitions                                                 *)
(* ===================================================================== *)

(** ** Python values held by the synced columns

    The columns and the dictionary entries are either [None] or a [str].
    [truthy] is Python's truth test and [py_or] is the [or] operator:
    [a or b] evaluates to [a] when [a] is truthy and to [b] otherwise. *)

Inductive pyval : Type :=
| PyNone
| PyStr (s : string).

Definition truthy (v : pyval) : bool :=
  match v with
  | PyNone => false
  | PyStr EmptyString => false
  | PyStr (String _ _) => true
  end.

Definition py_or (a b : pyval) : pyval :=
  if truthy a then a else b.

#[global] Instance pyval_eq_dec : EqDecision pyval.
Proof. solve_decision. Defined.

(** The specification's reading of "empty", kept apart from [truthy] to
    compare the two: a missing value, or an empty or whitespace-only
    string. *)
Definition is_whitespace (c : ascii) : bool :=
  let n := nat_of_ascii c in
  (Nat.eqb n 32 || (Nat.leb 9 n && Nat.leb n 13))%bool.

Fixpoint whitespace_only (s : string) : bool :=
  match s with
  | EmptyString => true
  | String c r => (is_whitespace c && whitespace_only r)%bool
  end.

Definition spec_empty (v : pyval) : bool :=
  match v with
  | PyNone => true
  | PyStr s => whitespace_only s
  end.

(** ** The dictionary returned by the fetcher

    [{'to_email': str, 'subject': str, 'body': str}]. *)

Module Gmail.
Record content : Type := Content {
  to_email : pyval;
  subject : pyval;
  body : pyval
}.
End Gmail.

(** ** The local draft row *)

(** Modelled from the spec: the column set of the draft model
    ([email_draft.py] is not among the sources).  The sync code names
    [gmail_draft_id], [to_email], [subject] and [body]; the remaining
    columns are those of the specification's data model. *)
Record EmailDraft : Type := mkDraft {
  id : string;
  owner : string;
  gmail_draft_id : pyval;
  to_email : pyval;
  subject : pyval;
  body : pyval;
  status : string;
  expiry : Z;
  created_at : Z
}.

#[global] Instance EmailDraft_eq_dec : EqDecision EmailDraft.
Proof. solve_decision. Defined.

(** ** The world the tools run in

    [gmail n draft_id] is what the [n]-th call of the fetcher answers for
    [draft_id] ([None]: unavailable), so the remote side may change
    between two calls.  [api_calls] logs every call with its answer,
    [rows] is the committed content of the drafts table and [commits]
    counts the calls of [db.commit()]. *)

Record world : Type := mkWorld {
  gmail : nat -> string -> option Gmail.content;
  api_calls : list (string * option Gmail.content);
  rows : gmap string EmailDraft;
  commits : nat
}.

Definition M (A : Type) : Type := world -> A * world.

Definition ret {A} (a : A) : M A := fun w => (a, w).

Definition bind {A B} (m : M A) (k : A -> M B) : M B :=
  fun w => let (a, w') := m w in k a w'.

Declare Scope sync_scope.
Delimit Scope sync_scope with sync.
Notation "'let*' x ':=' c 'in' k" := (bind c (fun x => k))
  (at level 10, x name, c at level 100, k at level 200) : sync_scope.
Notation "'let*' ' pat ':=' c 'in' k" :=
  (bind c (fun x => match x with pat => k end))
  (at level 10, pat pattern, c at level 100, k at level 200) : sync_scope.
Notation "c ';;;' k" := (bind c (fun _ => k))
  (at level 100, k at level 200, right associativity) : sync_scope.
Local Open Scope sync_scope.

(** [_fetch_gmail_draft(draft_id)] as its callers see it: one API call,
    logged, whose answer ([dict] or [None]) is the world's. *)
Definition _fetch_gmail_draft (draft_id : string) : M (option Gmail.content) :=
  fun w =>
    let answer := gmail w (List.length (api_calls w)) draft_id in
    (answer,
     mkWorld (gmail w) (api_calls w ++ [(draft_id, answer)]) (rows w) (commits w)).

(** [db.commit()]: the objects of the session are written to their rows. *)
Definition flush (session : list EmailDraft) (tbl : gmap string EmailDraft)
  : gmap string EmailDraft :=
  fold_left (fun t d => <[id d := d]> t) session tbl.

Definition db_commit (session : list EmailDraft) : M unit :=
  fun w =>
    (tt, mkWorld (gmail w) (api_calls w) (flush session (rows w)) (S (commits w))).

(** ** The sync logic

<<
    draft.to_email = gmail_content['to_email'] or draft.to_email
    draft.subject = gmail_content['subject'] or draft.subject
    draft.body = gmail_content['body'] or draft.body
>> *)
Definition update_from_gmail (gmail_content : Gmail.content) (draft : EmailDraft)
  : EmailDraft :=
  {| id := id draft;
     owner := owner draft;
     gmail_draft_id := gmail_draft_id draft;
     to_email := py_or (Gmail.to_email gmail_content) (to_email draft);
     subject := py_or (Gmail.subject gmail_content) (subject draft);
     body := py_or (Gmail.body gmail_content) (body draft);
     status := status draft;
     expiry := expiry draft;
     created_at := created_at draft |}.

(** The block guarded by [if gmail_content:].  The flag is the one the
    code keeps: in the list it is [synced_count += 1], in the selection it
    is the log line "Synced draft from Gmail".  A dictionary with its three
    keys is truthy whatever the values are. *)
Definition sync_from_gmail (draft : EmailDraft)
    (gmail_content : option Gmail.content) : EmailDraft * bool :=
  match gmail_content with
  | Some g => (update_from_gmail g draft, true)
  | None => (draft, false)
  end.

(** [draft.gmail_draft_id] when it passes [if draft.gmail_draft_id:]. *)
Definition reference_of (draft : EmailDraft) : option string :=
  match gmail_draft_id draft with
  | PyStr (String c s) => Some (String c s)
  | _ => None
  end.

(** The body of the loop, from [if draft.gmail_draft_id:] on. *)
Definition sync_draft (draft : EmailDraft) : M (EmailDraft * bool) :=
  match gmail_draft_id draft with
  | PyStr (String c s) =>
      let* gmail_content := _fetch_gmail_draft (String c s) in
      ret (sync_from_gmail draft gmail_content)
  | _ => ret (draft, false)
  end.

(** [for draft in drafts: ...], threading [synced_count]. *)
Fixpoint sync_loop (drafts : list EmailDraft) (synced_count : nat)
  : M (list EmailDraft * nat) :=
  match drafts with
  | [] => ret ([], synced_count)
  | draft :: rest =>
      let* '(draft', synced) := sync_draft draft in
      let* '(rest', n) :=
        sync_loop rest (if synced then S synced_count else synced_count) in
      ret (draft' :: rest', n)
  end.

(** [list_drafts_tool], from the rows the query returned on. *)
Definition list_drafts_tool (drafts : list EmailDraft) : M (list EmailDraft) :=
  let* '(drafts', synced_count) := sync_loop drafts 0 in
  if (0 <? synced_count)%nat
  then db_commit drafts' ;;; ret drafts'
  else ret drafts'.

(** The sync excerpt of [select_draft_tool]: the same block on
    [selected_draft] alone. *)
Definition select_sync (selected_draft : EmailDraft) : M (EmailDraft * bool) :=
  match gmail_draft_id selected_draft with
  | PyStr (String c s) =>
      let* gmail_content := _fetch_gmail_draft (String c s) in
      ret (sync_from_gmail selected_draft gmail_content)
  | _ => ret (selected_draft, false)
  end.

(** Modelled from the spec: the outcome of a selection, the record or
    "no such draft" (the return of [select_draft_tool] is not among the
    sources). *)
Inductive select_result : Type :=
| Selected (draft : EmailDraft)
| NoSuchDraft.

(** Modelled from the spec: [changed] of the reconciler, "true iff at
    least one field actually differs after applying this rule". *)
Definition fields_differ (before after : EmailDraft) : bool :=
  (bool_decide (to_email after <> to_email before)
   || bool_decide (subject after <> subject before)
   || bool_decide (body after <> body before))%bool.

(** Modelled from the spec: what [select_draft_tool] does around its sync
    excerpt; the excerpt ends with the three assignments, and the commit
    and the return of the function are not among the sources.  The
    selector is resolved outside; an unresolved one is reported as "no
    such draft"; the record is committed at once if [changed], that is if
    a field differs, and the updated record is returned. *)
Definition select_draft_tool (resolved : option EmailDraft) : M select_result :=
  match resolved with
  | None => ret NoSuchDraft
  | Some selected_draft =>
      let* '(draft', _) := select_sync selected_draft in
      if fields_differ selected_draft draft'
      then db_commit [draft'] ;;; ret (Selected draft')
      else ret (Selected draft')
  end.

(** ** The fetcher

    [email_tool.py] is not among the sources; the design note gives the
    signature of [_fetch_gmail_draft], its steps and its
    [except Exception: return None].  The body is modelled from the
    specification's contract and normalisation rules. *)

Module Fetcher.

Inductive exn : Type :=
| HttpError (status : nat)
| NetworkError
| DecodeError.

Inductive outcome (A : Type) : Type :=
| Returned (a : A)
| Raised (e : exn).
Arguments Returned {A} a.
Arguments Raised {A} e.

Record part : Type := Part {
  content_type : string;
  payload : string
}.

Record email_message : Type := Message {
  headers : list (string * string);
  parts : list part
}.

(** The mail provider as one call sees it: whether a service handle can
    be had (credentials), and what "get draft by id" answers: it raises,
    or returns a draft whose raw message may be absent. *)
Record provider : Type := Provider {
  service_available : bool;
  drafts_get : string -> outcome (option string)
}.

(** Modelled from the spec: a header is extracted by name; a missing
    header gives the empty string, not a failure. *)
Definition header (name : string) (msg : email_message) : string :=
  match find (fun h => String.eqb (fst h) name) (headers msg) with
  | Some h => snd h
  | None => ""%string
  end.

(** Modelled from the spec: the body is the plain-text part, whatever
    richer parts there are; without one it is empty. *)
Definition plain_text_body (msg : email_message) : string :=
  match find (fun p => String.eqb (content_type p) "text/plain") (parts msg) with
  | Some p => payload p
  | None => ""%string
  end.

(** Modelled from the spec: the normalised snapshot of a decoded
    message. *)
Definition normalize (msg : email_message) : Gmail.content :=
  {| Gmail.to_email := PyStr (header "To" msg);
     Gmail.subject := PyStr (header "Subject" msg);
     Gmail.body := PyStr (plain_text_body msg) |}.

Section Codec.

(** Decoding of the transported raw message; [None]: malformed. *)
Variable decode : string -> option email_message.

(** Modelled from the spec: the body of the [try] of
    [_fetch_gmail_draft]: no service handle gives [None]; the call to the
    provider may raise (unreachable, token, not found); a draft without a
    message gives [None]; a raw message that cannot be decoded raises. *)
Definition fetch_body (p : provider) (draft_id : string)
  : outcome (option Gmail.content) :=
  if service_available p then
    match drafts_get p draft_id with
    | Raised e => Raised e
    | Returned None => Returned None
    | Returned (Some raw) =>
        match decode raw with
        | None => Raised DecodeError
        | Some msg => Returned (Some (normalize msg))
        end
    end
  else Returned None.

(** Modelled from the spec: [_fetch_gmail_draft], the body under
    [try: ... except Exception as e: logger.error(...); return None]. *)
Definition _fetch_gmail_draft (p : provider) (draft_id : string)
  : outcome (option Gmail.content) :=
  match fetch_body p draft_id with
  | Raised _ => Returned None
  | Returned r => Returned r
  end.

End Codec.

End Fetcher.

(** ** The message handler of the frontend *)

Module Frontend.

(** [s.split('@')[0]]: the part before the first ['@'], the whole string
    when there is none. *)
Fixpoint before_at (s : string) : string :=
  match s with
  | EmptyString => EmptyString
  | String c r => if Ascii.eqb c "@" then EmptyString else String c (before_at r)
  end.

(** [list.includes(x)] on strings. *)
Definition includes (l : list string) (x : string) : bool :=
  existsb (fun y => String.eqb y x) l.

(** White space among the ASCII characters: space, tab, line feed,
    vertical tab, form feed and carriage return.  [trim] strips further
    Unicode spaces (U+00A0, U+FEFF, U+2028, ...), which are not recognised
    here: [blank] and [Config.trim] are the code's tests on text without
    such characters. *)
Definition is_space (c : ascii) : bool :=
  let n := nat_of_ascii c in
  (Nat.eqb n 32 || (Nat.leb 9 n && Nat.leb n 13))%bool.

(** [!s || s.trim() === ''] (on ASCII white space). *)
Fixpoint blank (s : string) : bool :=
  match s with
  | EmptyString => true
  | String c r => (is_space c && blank r)%bool
  end.

Record Media : Type := mkMedia {
  mimetype : string;
  data : string;
  filename : option string
}.

(** What [await message.downloadMedia()] does. *)
Inductive download : Type :=
| DownloadThrows
| DownloadNull
| Downloaded (media : Media).

Record Message : Type := mkMessage {
  from : string;
  body : string;
  broadcast : bool;
  fromMe : bool;
  hasMedia : bool;
  downloadMedia : download
}.

Record Chat : Type := mkChat { isGroup : bool }.

Record FileData : Type := mkFileData {
  fd_data : string;
  fd_name : string;
  fd_mime : string
}.

Record Payload : Type := mkPayload {
  user_id : string;
  message : string;
  file : option FileData
}.

Record ChatResponse : Type := mkChatResponse {
  resp_response : string;
  resp_tool_used : option string
}.

Record AgentResult : Type := mkAgentResult {
  success : bool;
  response : string;
  toolUsed : option string
}.

(** What the handler does to the outside: to the sender's chat and to
    the agent backend. *)
Inductive effect : Type :=
| DownloadMedia
| SendStateTyping
| ClearState
| PostChat (p : Payload) (timeout_ms : Z)
| Reply (text : string).

Record Config : Type := mkConfig { allowedNumbers : list string }.

(** The collaborators: the backend answers a POST or the request fails;
    [message.reply] may throw. *)
Record Env : Type := mkEnv {
  backend : Payload -> option ChatResponse;
  reply_throws : bool
}.

Definition supportedTypes : list string :=
  [ "application/pdf";
    "application/vnd.openxmlformats-officedocument.wordprocessingml.document";
    "application/vnd.openxmlformats-officedocument.presentationml.presentation";
    "application/vnd.openxmlformats-officedocument.spreadsheetml.sheet";
    "application/vnd.ms-excel";
    "text/csv";
    "text/plain";
    "application/msword" ]%string.

Definition mimeMap : list (string * string) :=
  [ ("application/pdf", "pdf");
    ("application/vnd.openxmlformats-officedocument.wordprocessingml.document", "docx");
    ("application/vnd.openxmlformats-officedocument.presentationml.presentation", "pptx");
    ("application/vnd.openxmlformats-officedocument.spreadsheetml.sheet", "xlsx");
    ("application/vnd.ms-excel", "xls");
    ("text/csv", "csv");
    ("text/plain", "txt");
    ("application/msword", "doc") ]%string.

(** [mimeMap[mimetype] || 'bin'], for a [mimetype] that is a key of the
    table or no property of an object at all.  The names an object
    literal inherits ([constructor], [toString], ...) give values that are
    not strings and lie outside this function; [handleMessage] calls it on
    supported types only. *)
Definition getExtensionFromMimetype (mimetype : string) : string :=
  match find (fun kv => String.eqb (fst kv) mimetype) mimeMap with
  | Some kv => snd kv
  | None => "bin"%string
  end.

Definition trouble_connecting : string :=
  "I'm having trouble connecting to my brain right now. Please try again in a moment."%string.

Definition technical_difficulties : string :=
  "I apologize, but I'm having technical difficulties right now. Please try again in a moment."%string.

(** [sendMessageToAgent(userId, message, fileData)] of [api.js]: the
    request that goes out and the result handed back. *)
Definition sendMessageToAgent (env : Env) (userId msg : string)
    (fileData : option FileData) : effect * AgentResult :=
  let payload := mkPayload userId msg fileData in
  let requestTimeout := match fileData with Some _ => 300000%Z | None => 180000%Z end in
  (PostChat payload requestTimeout,
   match backend env payload with
   | Some r => mkAgentResult true (resp_response r) (resp_tool_used r)
   | None => mkAgentResult false trouble_connecting None
   end).

(** From "Show typing indicator" to the end of [handleMessage],
    including the [catch] that sends the fallback reply. *)
Definition process (env : Env) (userId messageText : string)
    (fileData : option FileData) : list effect :=
  let (post, result) := sendMessageToAgent env userId messageText fileData in
  [SendStateTyping; post; ClearState; Reply (response result)]
    ++ (if reply_throws env then [Reply technical_difficulties] else []).

(** The media block: the effects so far, and either the text and file to
    go on with or [None] for the early [return]. *)
Definition media_block (m : Message) (messageText : string)
  : list effect * option (string * option FileData) :=
  if hasMedia m then
    match downloadMedia m with
    | DownloadThrows => ([DownloadMedia], Some (messageText, None))
    | DownloadNull => ([DownloadMedia], Some (messageText, None))
    | Downloaded media =>
        if includes supportedTypes (mimetype media) then
          let name :=
            match filename media with
            | Some (String c s) => String c s
            | _ => ("document." ++ getExtensionFromMimetype (mimetype media))%string
            end in
          let fileData := mkFileData (data media) name (mimetype media) in
          ([DownloadMedia],
           Some (if blank messageText
                 then "Please summarize this document."%string
                 else messageText,
                 Some fileData))
        else if blank messageText then ([DownloadMedia], None)
        else ([DownloadMedia], Some (messageText, None))
    end
  else ([], Some (messageText, None)).

(** [handleMessage] with attachments (the version that downloads media
    and knows [getExtensionFromMimetype]). *)
Definition handleMessage (config : Config) (env : Env)
    (m : Message) (chat : Chat) : list effect :=
  if isGroup chat then []
  else if (String.eqb (from m) "status@broadcast" || broadcast m)%bool then []
  else if fromMe m then []
  else
    let userId := from m in
    if (negb (Nat.eqb (List.length (allowedNumbers config)) 0)
        && negb (includes (allowedNumbers config) (before_at userId)))%bool
    then []
    else
      match media_block m (body m) with
      | (effs, None) => effs
      | (effs, Some (messageText, fileData)) =>
          if blank messageText then effs
          else effs ++ process env userId messageText fileData
      end.

(** [handleMessage] of [frontend/src/index.js] (text only): the empty
    message is dropped before the access check. *)
Definition handleMessage_text_only (config : Config) (env : Env)
    (m : Message) (chat : Chat) : list effect :=
  if isGroup chat then []
  else if (String.eqb (from m) "status@broadcast" || broadcast m)%bool then []
  else if fromMe m then []
  else if blank (body m) then []
  else
    let userId := from m in
    if (negb (Nat.eqb (List.length (allowedNumbers config)) 0)
        && negb (includes (allowedNumbers config) (before_at userId)))%bool
    then []
    else process env userId (body m) None.

End Frontend.

(** ** The configuration of the frontend ([config/config.js]) *)

Module Config.

(** [s.trimStart()], [s.trimEnd()] and [s.trim()], on ASCII white space. *)
Fixpoint trimStart (s : string) : string :=
  match s with
  | EmptyString => EmptyString
  | String c r => if Frontend.is_space c then trimStart r else String c r
  end.

Fixpoint trimEnd (s : string) : string :=
  match s with
  | EmptyString => EmptyString
  | String c r =>
      match trimEnd r with
      | EmptyString => if Frontend.is_space c then EmptyString else String c EmptyString
      | r' => String c r'
      end
  end.

Definition trim (s : string) : string := trimEnd (trimStart s).

(** [s.split(sep)] for a separator of one character: never an empty
    array, [''.split(',')] is [['']]. *)
Fixpoint split (sep : ascii) (s : string) : list string :=
  match s with
  | EmptyString => [EmptyString]
  | String c r =>
      if Ascii.eqb c sep then EmptyString :: split sep r
      else match split sep r with
           | h :: t => String c h :: t
           | [] => [String c EmptyString]
           end
  end.

(** [entries.join(sep)]. *)
Fixpoint join (sep : ascii) (entries : list string) : string :=
  match entries with
  | [] => EmptyString
  | [e] => e
  | e :: rest => (e ++ String sep (join sep rest))%string
  end.

(** [allowedNumbers]:
<<
    process.env.ALLOWED_WHATSAPP_NUMBERS
      ? process.env.ALLOWED_WHATSAPP_NUMBERS.split(',').map(n => n.trim())
      : []
>>
    The variable is unset ([None]) or a string; the empty string is
    falsy. *)
Definition allowedNumbers (env : option string) : list string :=
  match env with
  | Some (String c r) => map trim (split "," (String c r))
  | _ => []
  end.

Definition config (env : option string) : Frontend.Config :=
  Frontend.mkConfig (allowedNumbers env).

End Config.

(** ** The backend client ([src/api.js]) and the start-up ([main]) *)

Module Api.

(** The values a JSON body can hold, and [undefined] for a missing
    property.  Numbers are taken to be integers; arrays and nested objects
    are not looked into. *)
Inductive jsval : Type :=
| JUndefined
| JNull
| JBool (b : bool)
| JNum (n : Z)
| JStr (s : string)
| JObject.

(** [!!v]. *)
Definition js_truthy (v : jsval) : bool :=
  match v with
  | JUndefined | JNull => false
  | JBool b => b
  | JNum n => negb (Z.eqb n 0)
  | JStr EmptyString => false
  | JStr (String _ _) => true
  | JObject => true
  end.

(** [obj.key]. *)
Definition prop (obj : gmap string jsval) (key : string) : jsval :=
  match obj !! key with
  | Some v => v
  | None => JUndefined
  end.

(** What an awaited request gives: the body of the response, or the
    [error.message] of what was thrown. *)
Inductive http : Type :=
| Responded (data : gmap string jsval)
| Threw (message : string).

(** [checkBackendHealth()]: [{ healthy: true, ...response.data }], the
    later properties of a spread winning, or
    [{ healthy: false, error: error.message }]. *)
Definition checkBackendHealth (r : http) : gmap string jsval :=
  match r with
  | Responded data => data ∪ {[ "healthy"%string := JBool true ]}
  | Threw message =>
      <[ "healthy"%string := JBool false ]>
        {[ "error"%string := JStr message ]}
  end.



(** What [main] does to the process. *)
Inductive step : Type :=
| HealthCheck
| InitializeClient
| OnSignals
| StdinResume
| Exit (code : nat).

(** [main()]: the health check, [process.exit(1)] when
    [!health.healthy], the initialisation of the WhatsApp client, which
    may throw into the [catch] and its [process.exit(1)], and the signal
    handlers. *)
Definition main (health : http) (initialized : bool) : list step :=
  HealthCheck ::
  if negb (js_truthy (prop (checkBackendHealth health) "healthy"))
  then [Exit 1]
  else InitializeClient ::
       if initialized then [OnSignals; StdinResume] else [Exit 1].

End Api.

(** ** Bookkeeping used to state the properties *)

(** The references the loop meets, in order. *)
Fixpoint references (drafts : list EmailDraft) : list string :=
  match drafts with
  | [] => []
  | draft :: rest =>
      match reference_of draft with
      | Some r => r :: references rest
      | None => references rest
      end
  end.

(** A logged call that was answered with a snapshot. *)
Definition answered (call : string * option Gmail.content) : bool :=
  match snd call with
  | Some _ => true
  | None => false
  end.

(** A returned record is traced to the calls of a run when it is the
    local record itself, or the local record updated from a snapshot that
    one of these calls obtained under the record's own reference. *)
Definition traced (calls : list (string * option Gmail.content))
    (local returned : EmailDraft) : Prop :=
  returned = local \/
  exists r g, reference_of local = Some r /\ In (r, Some g) calls /\
              returned = update_from_gmail g local.

(** The protected columns of two records agree. *)
Definition same_protected (local returned : EmailDraft) : Prop :=
  id returned = id local /\ owner returned = owner local /\
  gmail_draft_id returned = gmail_draft_id local /\
  status returned = status local /\ expiry returned = expiry local /\
  created_at returned = created_at local.

(** No field that held content has lost it. *)
Definition no_field_blanked (local returned : EmailDraft) : bool :=
  (implb (truthy (to_email local)) (truthy (to_email returned))
   && implb (truthy (subject local)) (truthy (subject returned))
   && implb (truthy (body local)) (truthy (body returned)))%bool.

(** What a record becomes under a remote side that answers [remote r]
    for the reference [r] at every call. *)
Definition synced_view (remote : string -> option Gmail.content)
    (local : EmailDraft) : EmailDraft :=
  fst (sync_from_gmail local
         match reference_of local with
         | Some r => remote r
         | None => None
         end).

(** The shapes a run of the handler can have: nothing, a lone media
    download, or, after at most one download, the typing indicator, one
    request, the indicator cleared and the reply, followed at most by the
    apology sent when the reply threw. *)
Definition well_shaped (trace : list Frontend.effect) : Prop :=
  trace = [] \/
  trace = [Frontend.DownloadMedia] \/
  exists pre p timeout answer tail,
    (pre = [] \/ pre = [Frontend.DownloadMedia]) /\
    (tail = [] \/ tail = [Frontend.Reply Frontend.technical_difficulties]) /\
    trace = pre ++ [Frontend.SendStateTyping; Frontend.PostChat p timeout;
                    Frontend.ClearState; Frontend.Reply answer] ++ tail.

(** The same message with [hasMedia] false. *)
Definition without_media (m : Frontend.Message) : Frontend.Message :=
  Frontend.mkMessage (Frontend.from m) (Frontend.body m) (Frontend.broadcast m)
                     (Frontend.fromMe m) false (Frontend.downloadMedia m).

(** The message carries a document the handler accepts. *)
Definition carries_document (m : Frontend.Message) : Prop :=
  Frontend.hasMedia m = true /\
  exists media, Frontend.downloadMedia m = Frontend.Downloaded media /\
                Frontend.includes Frontend.supportedTypes
                                  (Frontend.mimetype media) = true.

(** The value the sync leaves in a field: the remote one when it is a
    non-empty string, the local one otherwise. *)
Definition taken (remote : option pyval) (local : pyval) : pyval :=
  match remote with
  | Some (PyStr (String c s)) => PyStr (String c s)
  | _ => local
  end.

(** What a selection that resolved [selected] has to do in the world
    [w]: one call of the fetcher when the record has a non-empty
    [gmail_draft_id] and none otherwise; the record returned with the
    three fields taken from the answer; one commit of that record to its
    row exactly when one of the three fields differs from before. *)
Definition select_contract (selected : EmailDraft) (w : world) : Prop :=
  let answer :=
    match gmail_draft_id selected with
    | PyStr (String c s) => gmail w (List.length (api_calls w)) (String c s)
    | _ => None
    end in
  let calls :=
    match gmail_draft_id selected with
    | PyStr (String c s) => [(String c s, answer)]
    | _ => []
    end in
  let merged :=
    {| id := id selected;
       owner := owner selected;
       gmail_draft_id := gmail_draft_id selected;
       to_email := taken (Gmail.to_email <$> answer) (to_email selected);
       subject := taken (Gmail.subject <$> answer) (subject selected);
       body := taken (Gmail.body <$> answer) (body selected);
       status := status selected;
       expiry := expiry selected;
       created_at := created_at selected |} in
  let changed :=
    bool_decide (to_email merged <> to_email selected \/
                 subject merged <> subject selected \/
                 body merged <> body selected) in
  select_draft_tool (Some selected) w =
    (Selected merged,
     mkWorld (gmail w) (api_calls w ++ calls)
             (if changed then <[id selected := merged]> (rows w) else rows w)
             (if changed then S (commits w) else commits w)).


(** The string holds ASCII characters only. *)
Definition ascii_only (s : string) : bool :=
  forallb (fun c => Nat.ltb (nat_of_ascii c) 128) (list_ascii_of_string s).

(** ** Sample records and worlds *)

Module Sample.
Local Open Scope string_scope.

Definition meeting : EmailDraft :=
  mkDraft "draft-1" "628118491177@c.us" (PyStr "abc123")
          (PyStr "alice@example.com") (PyStr "Meeting")
          (PyStr "Meeting at 2 PM") "draft" 1761560000 1761556400.

Definition report : EmailDraft :=
  mkDraft "draft-2" "628118491177@c.us" (PyStr "def456")
          (PyStr "bob@company.com") (PyStr "Message from Personal Assistant")
          (PyStr "Numbers attached") "draft" 1761560000 1761556500.

Definition unpublished : EmailDraft :=
  mkDraft "draft-3" "628118491177@c.us" PyNone
          (PyStr "carol@example.com") (PyStr "Lunch")
          (PyStr "Friday?") "draft" 1761560000 1761556600.

Definition kept : EmailDraft :=
  mkDraft "draft-4" "628118491177@c.us" (PyStr "ghi789")
          (PyStr "dave@example.com") (PyStr "Invoice")
          (PyStr "See attachment") "kept" 1761642800 1761556700.

Definition unpublished' : EmailDraft :=
  mkDraft "draft-5" "628118491177@c.us" (PyStr "")
          (PyStr "erin@example.com") (PyStr "Notes")
          (PyStr "To do") "draft" 1761560000 1761556800.

(** Edited in Gmail: new recipient and body, subject cleared. *)
Definition edited : Gmail.content :=
  Gmail.Content (PyStr "a@b.com") (PyStr "") (PyStr "Meeting at 3 PM").

(** The subject replaced by one space in Gmail. *)
Definition spaced : Gmail.content :=
  Gmail.Content (PyStr "alice@example.com") (PyStr " ") (PyStr "Meeting at 2 PM").

(** Gmail holds exactly what the row [meeting] holds. *)
Definition unedited : Gmail.content :=
  Gmail.Content (PyStr "alice@example.com") (PyStr "Meeting") (PyStr "Meeting at 2 PM").

Definition retitled : Gmail.content :=
  Gmail.Content (PyStr "bob@company.com") (PyStr "Q1 Project Update")
                (PyStr "Numbers attached").

Definition table : gmap string EmailDraft :=
  flush [meeting; report; unpublished; kept; unpublished'] ∅.

(** Gmail answers every call with the same snapshot. *)
Definition steady (g : Gmail.content) : world :=
  mkWorld (fun _ _ => Some g) [] table 0.

(** Gmail cannot be reached. *)
Definition outage : world :=
  mkWorld (fun _ _ => None) [] table 0.

(** Two drafts were edited in Gmail, a third was deleted there. *)
Definition mixed : world :=
  mkWorld (fun _ r =>
             if String.eqb r "abc123" then Some edited
             else if String.eqb r "def456" then Some retitled
             else None)
          [] table 0.

Definition five : list EmailDraft :=
  [meeting; report; unpublished; kept; unpublished'].

(** A remote draft whose message has no headers and no parts. *)
Definition bare_decode (raw : string) : option Fetcher.email_message :=
  if String.eqb raw "" then None else Some (Fetcher.Message [] []).

Definition bare_provider : Fetcher.provider :=
  Fetcher.Provider true (fun _ => Fetcher.Returned (Some "DQo=")).

Definition not_found_provider : Fetcher.provider :=
  Fetcher.Provider true (fun _ => Fetcher.Raised (Fetcher.HttpError 404)).

(** The frontend: access restricted to one number. *)
Definition restricted : Frontend.Config :=
  Frontend.mkConfig ["628118491177"].

Definition echo : Frontend.Env :=
  Frontend.mkEnv
    (fun p => Some (Frontend.mkChatResponse (Frontend.message p) None))
    false.

Definition hello_from (sender : string) : Frontend.Message :=
  Frontend.mkMessage sender "show my drafts" false false false
                     Frontend.DownloadNull.

Definition private_chat : Frontend.Chat := Frontend.mkChat false.
End Sample.

(** ** Further sample messages and settings *)

Module Cases.
Local Open Scope string_scope.

Definition report_pdf : Frontend.Media :=
  Frontend.mkMedia "application/pdf" "JVBERi0xLjQK" None.

Definition holiday_photo : Frontend.Media :=
  Frontend.mkMedia "image/jpeg" "/9j/4AAQSkZJRg==" (Some "IMG_0001.jpg").

(** A document sent without any text. *)
Definition document_from (sender : string) : Frontend.Message :=
  Frontend.mkMessage sender "" false false true (Frontend.Downloaded report_pdf).

(** A photo sent without any text. *)
Definition photo_from (sender : string) : Frontend.Message :=
  Frontend.mkMessage sender "" false false true (Frontend.Downloaded holiday_photo).

(** A text whose attachment cannot be downloaded. *)
Definition broken_attachment_from (sender : string) : Frontend.Message :=
  Frontend.mkMessage sender "what is in this file?" false false true
                     Frontend.DownloadThrows.

Definition unreachable : Frontend.Env :=
  Frontend.mkEnv (fun _ => None) false.

Definition document_file : Frontend.FileData :=
  Frontend.mkFileData "JVBERi0xLjQK" "document.pdf" "application/pdf".

Definition healthy_body : gmap string Api.jsval :=
  {[ "version" := Api.JStr "1.0.0"; "environment" := Api.JStr "production" ]}.

Definition degraded_body : gmap string Api.jsval :=
  {[ "healthy" := Api.JBool false; "version" := Api.JStr "1.0.0" ]}.

End Cases.

(* ===================================================================== *)
(** * Part II: properties                                                 *)
(* ===================================================================== *)

(** ** The [or] operator *)

Lemma truthy_spec (v : pyval) :
  truthy v = true <-> exists s, v = PyStr s /\ s <> EmptyString.
Proof.
  destruct v as [|[|c s]]; simpl; split; intros H; try discriminate.
  - destruct H as (s & Hs & _). discriminate.
  - destruct H as (s & Hs & Hne). injection Hs as <-. contradiction.
  - exists (String c s). split; [reflexivity | discriminate].
  - reflexivity.
Qed.

Lemma falsy_spec (v : pyval) :
  truthy v = false <-> v = PyNone \/ v = PyStr EmptyString.
Proof.
  destruct v as [|[|c s]]; simpl; split; intros H; auto; try discriminate.
  destruct H as [H|H]; discriminate.
Qed.

Lemma py_or_truthy (a b : pyval) : truthy a = true -> py_or a b = a.
Proof. unfold py_or. intros ->. reflexivity. Qed.

Lemma py_or_falsy (a b : pyval) : truthy a = false -> py_or a b = b.
Proof. unfold py_or. intros ->. reflexivity. Qed.

Lemma py_or_idem (a b : pyval) : py_or a (py_or a b) = py_or a b.
Proof. unfold py_or. destruct (truthy a); reflexivity. Qed.

Lemma py_or_self (a : pyval) : py_or a a = a.
Proof. unfold py_or. destruct (truthy a); reflexivity. Qed.

(** ** The sync block on one record *)

Section Reconcile.

Variable local : EmailDraft.

Local Open Scope string_scope.

(** C1, as amended.  With an available snapshot each of [to_email],
    [subject] and [body] takes the remote value exactly when that value
    is a string other than the empty one, and keeps the local value when
    the remote value is [None] or the empty string.  White space counts
    as content. *)
Theorem sync_nonempty_wins (g : Gmail.content) :
  let merged := fst (sync_from_gmail local (Some g)) in
  ((forall s, Gmail.to_email g = PyStr s -> s <> "" -> to_email merged = PyStr s) /\
   (Gmail.to_email g = PyNone \/ Gmail.to_email g = PyStr "" ->
    to_email merged = to_email local)) /\
  ((forall s, Gmail.subject g = PyStr s -> s <> "" -> subject merged = PyStr s) /\
   (Gmail.subject g = PyNone \/ Gmail.subject g = PyStr "" ->
    subject merged = subject local)) /\
  ((forall s, Gmail.body g = PyStr s -> s <> "" -> body merged = PyStr s) /\
   (Gmail.body g = PyNone \/ Gmail.body g = PyStr "" ->
    body merged = body local)).
Proof.
  simpl.
  repeat split.
  all: try (intros s Hs Hne; rewrite <- Hs; apply py_or_truthy;
            apply truthy_spec; eauto).
  all: intros H; apply py_or_falsy; apply falsy_spec; exact H.
Qed.

(** C2.  Whatever the fetch gave, a snapshot or nothing, the sync block
    leaves [status], [expiry], [created_at], [id], [owner] and
    [gmail_draft_id] as they were; so do the loop body and the selection
    excerpt in every world. *)
Theorem protected_fields_untouched
    (snapshot : option Gmail.content) (w : world) :
  let same (d : EmailDraft) :=
    status d = status local /\ expiry d = expiry local /\
    created_at d = created_at local /\ id d = id local /\
    owner d = owner local /\ gmail_draft_id d = gmail_draft_id local in
  same (fst (sync_from_gmail local snapshot)) /\
  same (fst (fst (sync_draft local w))) /\
  same (fst (fst (select_sync local w))).
Proof.
  simpl. split; [|split].
  - destruct snapshot; simpl; repeat split.
  - unfold sync_draft. destruct (gmail_draft_id local) as [|[|c s]] eqn:E;
      simpl; rewrite ?E; repeat split.
    all: destruct (gmail w _ _); simpl; rewrite ?E; reflexivity.
  - unfold select_sync. destruct (gmail_draft_id local) as [|[|c s]] eqn:E;
      simpl; rewrite ?E; repeat split.
    all: destruct (gmail w _ _); simpl; rewrite ?E; reflexivity.
Qed.

(** C6, as amended.  Running the sync block again with the same input
    returns the same pair as the first run: the same record, no field
    moves, and the same flag (true for a snapshot, false for none). *)
Theorem sync_idempotent (snapshot : option Gmail.content) :
  let once := sync_from_gmail local snapshot in
  sync_from_gmail (fst once) snapshot = once.
Proof.
  destruct snapshot as [g|]; simpl; [|reflexivity].
  unfold update_from_gmail; simpl. rewrite !py_or_idem. reflexivity.
Qed.

End Reconcile.

(** C1, refuted as stated: a subject that is one space in Gmail is empty
    in the specification's sense, and yet it replaces the local subject. *)
Lemma whitespace_subject_overwrites :
  let merged := fst (sync_from_gmail Sample.meeting (Some Sample.spaced)) in
  spec_empty (Gmail.subject Sample.spaced) = true /\
  subject Sample.meeting = PyStr "Meeting" /\
  subject merged = PyStr " " /\
  subject merged <> subject Sample.meeting.
Proof. simpl. repeat split. discriminate. Qed.

Lemma sync_nonempty_wins_witness :
  body (fst (sync_from_gmail Sample.meeting (Some Sample.edited)))
    = PyStr "Meeting at 3 PM" /\
  subject (fst (sync_from_gmail Sample.meeting (Some Sample.edited)))
    = PyStr "Meeting".
Proof.
  destruct (sync_nonempty_wins Sample.meeting Sample.edited)
    as (_ & (_ & Hsubject) & (Hbody & _)).
  split.
  - apply Hbody; [reflexivity | discriminate].
  - apply Hsubject. right. reflexivity.
Defined.

(** C6, refuted as stated: the second run with the same snapshot moves no
    field and still raises the flag. *)
Lemma second_sync_still_flagged :
  let once := sync_from_gmail Sample.meeting (Some Sample.edited) in
  let twice := sync_from_gmail (fst once) (Some Sample.edited) in
  fst twice = fst once /\ snd twice = true.
Proof. split; reflexivity. Qed.

(** C4, refuted as stated: Gmail holds what the row holds, the merged
    record equals the row, and the flag is raised. *)
Lemma flag_raised_without_change :
  sync_from_gmail Sample.meeting (Some Sample.unedited) = (Sample.meeting, true).
Proof. reflexivity. Qed.

Section Flag.

Variable local : EmailDraft.

Lemma unchanged_when_unflagged (snapshot : option Gmail.content) :
  snd (sync_from_gmail local snapshot) = false ->
  fst (sync_from_gmail local snapshot) = local.
Proof. destruct snapshot; simpl; [discriminate | reflexivity]. Qed.

(** C4, as amended.  The flag tells that a snapshot was obtained: it is
    raised for every available snapshot, hence whenever one of the three
    fields differs after the rule, and it stays down only when nothing
    was fetched, where the record is unchanged. *)
Theorem flag_covers_changes (snapshot : option Gmail.content) :
  let merged := fst (sync_from_gmail local snapshot) in
  let flag := snd (sync_from_gmail local snapshot) in
  (flag = true <-> snapshot <> None) /\
  (to_email merged <> to_email local \/ subject merged <> subject local \/
   body merged <> body local -> flag = true) /\
  (flag = false -> merged = local).
Proof.
  simpl. split; [|split].
  - destruct snapshot; simpl; split; congruence.
  - destruct snapshot; simpl; [reflexivity|]. intros [H|[H|H]]; congruence.
  - apply unchanged_when_unflagged.
Qed.

End Flag.

Lemma flag_covers_changes_witness :
  snd (sync_from_gmail Sample.meeting (Some Sample.edited)) = true.
Proof.
  apply (flag_covers_changes Sample.meeting (Some Sample.edited)).
  right. right. simpl. discriminate.
Defined.

(** ** The loop body in a world *)

Lemma sync_draft_unfold (draft : EmailDraft) (w : world) :
  sync_draft draft w =
  match reference_of draft with
  | Some r =>
      let answer := gmail w (List.length (api_calls w)) r in
      (sync_from_gmail draft answer,
       mkWorld (gmail w) (api_calls w ++ [(r, answer)]) (rows w) (commits w))
  | None => ((draft, false), w)
  end.
Proof.
  unfold sync_draft, reference_of.
  destruct (gmail_draft_id draft) as [|[|c s]]; reflexivity.
Qed.

Lemma select_sync_unfold (draft : EmailDraft) (w : world) :
  select_sync draft w =
  match reference_of draft with
  | Some r =>
      let answer := gmail w (List.length (api_calls w)) r in
      (sync_from_gmail draft answer,
       mkWorld (gmail w) (api_calls w ++ [(r, answer)]) (rows w) (commits w))
  | None => ((draft, false), w)
  end.
Proof.
  unfold select_sync, reference_of.
  destruct (gmail_draft_id draft) as [|[|c s]]; reflexivity.
Qed.

Lemma reference_of_falsy (draft : EmailDraft) :
  truthy (gmail_draft_id draft) = false <-> reference_of draft = None.
Proof.
  unfold reference_of. destruct (gmail_draft_id draft) as [|[|c s]]; simpl;
    split; congruence.
Qed.

(** What one pass of the loop does: the calls it makes, each answered by
    the world, the count it keeps, and what it leaves alone. *)
Lemma sync_loop_spec (drafts : list EmailDraft) :
  forall (n : nat) (w : world),
  exists (calls : list (string * option Gmail.content))
         (out : list EmailDraft) (w' : world),
    sync_loop drafts n w
      = ((out, n + List.length (List.filter answered calls)), w') /\
    api_calls w' = api_calls w ++ calls /\
    map fst calls = references drafts /\
    Forall (fun call => exists k, snd call = gmail w k (fst call)) calls /\
    gmail w' = gmail w /\ rows w' = rows w /\ commits w' = commits w /\
    List.length out = List.length drafts /\
    (List.filter answered calls = [] -> out = drafts).
Proof.
  induction drafts as [|d rest IH]; intros n w.
  - exists [], [], w. simpl. rewrite app_nil_r, Nat.add_0_r. repeat split.
    constructor.
  - simpl. unfold bind. rewrite sync_draft_unfold.
    destruct (reference_of d) as [r|] eqn:Er.
    + set (answer := gmail w (List.length (api_calls w)) r).
      set (w1 := mkWorld (gmail w) (api_calls w ++ [(r, answer)]) (rows w) (commits w)).
      cbv zeta.
      destruct (sync_from_gmail d answer) as [d' synced] eqn:Es.
      destruct (IH (if synced then S n else n) w1)
        as (calls & out & w2 & Heq & Hc & Hr & Hans & Hg & Hrows & Hcm & Hlen & Hsame).
      subst w1. rewrite Heq. exists ((r, answer) :: calls), (d' :: out), w2.
      simpl in Hc, Hg, Hrows, Hcm, Hans.
      assert (Hans' : Forall (fun call => exists k, snd call = gmail w k (fst call))
                             ((r, answer) :: calls)).
      { constructor; [exists (List.length (api_calls w)); reflexivity | exact Hans]. }
      rewrite Hc, <- app_assoc. simpl. unfold answered at 1 3. simpl.
      destruct answer as [g|]; simpl in Es; injection Es as <- <-; simpl.
      * repeat split; auto; try congruence.
        unfold ret. do 2 f_equal. f_equal. lia.
      * repeat split; auto; try congruence.
        intros H. rewrite (Hsame H). reflexivity.
    + destruct (IH n w)
        as (calls & out & w2 & Heq & Hc & Hr & Hans & Hg & Hrows & Hcm & Hlen & Hsame).
      rewrite Heq. exists calls, (d :: out), w2. simpl.
      repeat split; auto.
      intros H. rewrite (Hsame H). reflexivity.
Qed.

Lemma positive_filter_existsb {A} (f : A -> bool) (l : list A) :
  (0 <? List.length (List.filter f l))%nat = existsb f l.
Proof.
  induction l as [|a l IH]; simpl; [reflexivity|].
  destruct (f a); simpl; [reflexivity | exact IH].
Qed.

Lemma existsb_false_filter {A} (f : A -> bool) (l : list A) :
  existsb f l = false -> List.filter f l = [].
Proof.
  induction l as [|a l IH]; simpl; [reflexivity|].
  destruct (f a); simpl; [discriminate | exact IH].
Qed.

(** ** The list operation *)

(** C7, refuted as stated: Gmail holds what the row holds, no record
    changes, and the list still commits. *)
Lemma commit_without_change :
  let run := list_drafts_tool [Sample.meeting] (Sample.steady Sample.unedited) in
  fst run = [Sample.meeting] /\
  commits (Sample.steady Sample.unedited) = 0 /\
  commits (snd run) = 1.
Proof. vm_compute. repeat split. Qed.

(** C7, as amended.  One list invocation calls the fetcher exactly for the
    records whose [gmail_draft_id] is a non-empty string, in order; it
    commits at most once, and it does so exactly when at least one of
    those calls returned a snapshot, writing the records as they stand
    after the loop.  So a changed record always brings the one commit;
    a fetched record that equals the local one brings it too. *)
Theorem list_commits_once (drafts : list EmailDraft) (w : world) :
  exists (calls : list (string * option Gmail.content))
         (out : list EmailDraft) (w' : world),
    list_drafts_tool drafts w = (out, w') /\
    api_calls w' = api_calls w ++ calls /\
    map fst calls = references drafts /\
    commits w' = commits w + (if existsb answered calls then 1 else 0) /\
    rows w' = (if existsb answered calls then flush out (rows w) else rows w) /\
    List.length out = List.length drafts /\
    (out <> drafts -> commits w' = S (commits w)).
Proof.
  destruct (sync_loop_spec drafts 0 w)
    as (calls & out & w1 & Heq & Hc & Hr & _ & _ & Hrows & Hcm & Hlen & Hsame).
  unfold list_drafts_tool, bind. rewrite Heq. simpl.
  rewrite positive_filter_existsb.
  destruct (existsb answered calls) eqn:Ex.
  - exists calls, out, (mkWorld (gmail w1) (api_calls w1) (flush out (rows w1)) (S (commits w1))).
    simpl. rewrite Hrows, Hcm, Ex. repeat split; auto; lia.
  - exists calls, out, w1. unfold ret. rewrite Ex.
    repeat split; auto; try lia.
    intros Hne. exfalso. apply Hne, Hsame, existsb_false_filter, Ex.
Qed.

(** The scenario of the specification: five records, three with a
    reference, one of these unavailable and two edited in Gmail. *)
Lemma list_commits_once_witness :
  commits (snd (list_drafts_tool Sample.five Sample.mixed)) = 1.
Proof.
  destruct (list_commits_once Sample.five Sample.mixed)
    as (calls & out & w' & Heq & _ & _ & _ & _ & _ & Hchanged).
  rewrite Heq. simpl. apply Hchanged.
  assert (Hout : out = fst (list_drafts_tool Sample.five Sample.mixed))
    by (rewrite Heq; reflexivity).
  rewrite Hout. vm_compute. discriminate.
Defined.

Example list_five_scenario :
  let run := list_drafts_tool Sample.five Sample.mixed in
  map fst (api_calls (snd run)) = ["abc123"; "def456"; "ghi789"]%string /\
  List.length (List.filter (fun p => negb (bool_decide (fst p = snd p)))
                           (combine Sample.five (fst run))) = 2 /\
  commits (snd run) = 1.
Proof. vm_compute. repeat split. Qed.

Lemma list_unanswered (drafts : list EmailDraft) (w : world) :
  (forall n r, gmail w n r = None) ->
  exists w', list_drafts_tool drafts w = (drafts, w') /\
             commits w' = commits w /\ rows w' = rows w.
Proof.
  intros Hdown.
  destruct (sync_loop_spec drafts 0 w)
    as (calls & out & w1 & Heq & _ & _ & Hans & _ & Hrows & Hcm & _ & Hsame).
  assert (Hnone : List.filter answered calls = []).
  { clear -Hans Hdown. induction Hans as [|call calls (k & Hk) _ IH]; [reflexivity|].
    simpl. unfold answered at 1. rewrite Hk, Hdown. exact IH. }
  unfold list_drafts_tool, bind. rewrite Heq, Hnone. simpl.
  exists w1. rewrite (Hsame Hnone). repeat split; assumption.
Qed.

(** ** The fallback and the skip *)

Section Fallback.

Variable local : EmailDraft.
Variable w : world.

(** C3.  With no snapshot the sync block returns the record as it is
    and leaves the flag down.  When the call for this record is answered
    with nothing, the loop body does the same and so does the sync of
    the selection, which hands on this very record, with no commit and
    nothing raised; and when Gmail answers nothing at all, a list of any
    records returns these records unchanged, without a commit. *)
Theorem unavailable_is_noop :
  sync_from_gmail local None = (local, false) /\
  ((forall r, reference_of local = Some r ->
              gmail w (List.length (api_calls w)) r = None) ->
   fst (sync_draft local w) = (local, false) /\
   exists w', select_sync local w = ((local, false), w') /\
              commits w' = commits w /\ rows w' = rows w) /\
  ((forall n r, gmail w n r = None) ->
   forall drafts, exists w',
     list_drafts_tool drafts w = (drafts, w') /\
     commits w' = commits w /\ rows w' = rows w).
Proof.
  split; [reflexivity|]. split.
  - intros Hnone.
    rewrite select_sync_unfold, sync_draft_unfold.
    destruct (reference_of local) as [r|] eqn:Er.
    + cbv zeta. rewrite (Hnone r eq_refl). simpl.
      split; [reflexivity|]. eexists. split; [reflexivity|]. split; reflexivity.
    + simpl. split; [reflexivity|]. exists w. repeat split.
  - intros Hdown drafts. apply list_unanswered, Hdown.
Qed.

(** C5.  A record whose [gmail_draft_id] is [None] or the empty string
    goes through the loop body, the sync of the selection and a list
    untouched: the world is the same afterwards (no call, no commit), the
    record is the same and the flag is down; nothing is reported as an
    error. *)
Theorem no_reference_no_fetch :
  gmail_draft_id local = PyNone \/ gmail_draft_id local = PyStr "" ->
  sync_draft local w = ((local, false), w) /\
  select_sync local w = ((local, false), w) /\
  list_drafts_tool [local] w = ([local], w).
Proof.
  intros Hfalsy. apply falsy_spec, reference_of_falsy in Hfalsy.
  assert (Hskip : sync_draft local w = ((local, false), w))
    by (rewrite sync_draft_unfold, Hfalsy; reflexivity).
  assert (Hskip' : select_sync local w = ((local, false), w))
    by (rewrite select_sync_unfold, Hfalsy; reflexivity).
  repeat split.
  - exact Hskip.
  - exact Hskip'.
  - unfold list_drafts_tool. simpl. unfold bind. rewrite Hskip. reflexivity.
Qed.

End Fallback.

Lemma unavailable_is_noop_witness :
  fst (sync_draft Sample.meeting Sample.outage) = (Sample.meeting, false) /\
  fst (list_drafts_tool Sample.five Sample.outage) = Sample.five.
Proof.
  destruct (unavailable_is_noop Sample.meeting Sample.outage)
    as (_ & Hone & Hall).
  split.
  - apply Hone. intros r _. reflexivity.
  - destruct (Hall (fun _ _ => eq_refl) Sample.five) as (w' & Heq & _).
    rewrite Heq. reflexivity.
Defined.

Lemma no_reference_no_fetch_witness :
  sync_draft Sample.unpublished Sample.mixed
    = ((Sample.unpublished, false), Sample.mixed) /\
  sync_draft Sample.unpublished' Sample.mixed
    = ((Sample.unpublished', false), Sample.mixed).
Proof.
  split.
  - apply (no_reference_no_fetch Sample.unpublished Sample.mixed).
    left. reflexivity.
  - apply (no_reference_no_fetch Sample.unpublished' Sample.mixed).
    right. reflexivity.
Defined.

(** ** The select operation *)

Lemma py_or_taken (remote local : pyval) :
  py_or remote local = taken (Some remote) local.
Proof. destruct remote as [|[|c s]]; reflexivity. Qed.

Section Select.

Variable selected : EmailDraft.
Variable w : world.

(** C8.  A selection that resolved [selected], in any world and in
    particular in the world a list call has just left: the fetcher is
    called once for the record when it has a reference, the record
    returned has each of the three fields taken from the answer (the
    remote value when it is a non-empty string, the local one otherwise)
    and all other fields as before, and that record is committed to its
    row at once, with one commit, exactly when a field differs. *)
Theorem select_syncs_commits_returns (drafts : list EmailDraft) :
  select_contract selected w /\
  select_contract selected (snd (list_drafts_tool drafts w)).
Proof.
  assert (Hall : forall (sel : EmailDraft) (w0 : world), select_contract sel w0).
  { clear. intros sel w0.
    unfold select_contract, select_draft_tool, bind.
    rewrite select_sync_unfold. unfold reference_of.
    destruct sel as [i o gid to sj bd st ex cr].
    cbn [gmail_draft_id id owner to_email subject body status expiry created_at].
    destruct gid as [|[|c s]].
    - cbn [fst snd sync_from_gmail fmap option_fmap option_map taken].
      unfold fields_differ. cbn [to_email subject body].
      repeat case_bool_decide; try tauto.
      cbn [orb]. unfold ret. rewrite app_nil_r. destruct w0; reflexivity.
    - cbn [fst snd sync_from_gmail fmap option_fmap option_map taken].
      unfold fields_differ. cbn [to_email subject body].
      repeat case_bool_decide; try tauto.
      cbn [orb]. unfold ret. rewrite app_nil_r. destruct w0; reflexivity.
    - cbv zeta.
      destruct (gmail w0 (List.length (api_calls w0)) (String c s)) as [g|].
      + cbn [sync_from_gmail fmap option_fmap option_map].
        unfold update_from_gmail, fields_differ.
        cbn [gmail_draft_id id owner to_email subject body status expiry
             created_at].
        rewrite !py_or_taken.
        repeat case_bool_decide; try tauto; reflexivity.
      + cbn [sync_from_gmail fmap option_fmap option_map taken].
        unfold fields_differ. cbn [to_email subject body].
        repeat case_bool_decide; try tauto; reflexivity. }
  split; apply Hall.
Qed.

End Select.

Lemma select_syncs_commits_returns_witness :
  commits (snd (select_draft_tool (Some Sample.meeting) (Sample.steady Sample.edited)))
    = 1.
Proof.
  destruct (select_syncs_commits_returns Sample.meeting
              (Sample.steady Sample.edited) []) as (Heq & _).
  unfold select_contract in Heq. rewrite Heq. reflexivity.
Defined.

(** A selection right after a list fetches the same draft again, finds
    nothing to change and does not commit a second time. *)
Example select_after_list :
  let listed := list_drafts_tool [Sample.meeting] (Sample.steady Sample.edited) in
  let run := select_draft_tool (nth_error (fst listed) 0) (snd listed) in
  map fst (api_calls (snd run)) = ["abc123"; "abc123"]%string /\
  fst run = Selected (fst (sync_from_gmail Sample.meeting (Some Sample.edited))) /\
  commits (snd listed) = 1 /\
  commits (snd run) = 1.
Proof. vm_compute. repeat split. Qed.

(** A selection whose Gmail copy equals the row commits nothing. *)
Example select_unedited_commits_nothing :
  let run := select_draft_tool (Some Sample.meeting)
                               (Sample.steady Sample.unedited) in
  fst run = Selected Sample.meeting /\ commits (snd run) = 0.
Proof. vm_compute. repeat split. Qed.

(** ** The fetcher *)

Section FetcherContract.

Variable decode : string -> option Fetcher.email_message.
Variable p : Fetcher.provider.
Variable draft_id : string.

Let result := Fetcher._fetch_gmail_draft decode p draft_id.

Lemma fetch_failures_collapse :
  (Fetcher.service_available p = false -> result = Fetcher.Returned None) /\
  (forall e, Fetcher.drafts_get p draft_id = Fetcher.Raised e ->
             result = Fetcher.Returned None) /\
  (Fetcher.drafts_get p draft_id = Fetcher.Returned None ->
   result = Fetcher.Returned None) /\
  (forall raw, Fetcher.drafts_get p draft_id = Fetcher.Returned (Some raw) ->
               decode raw = None -> result = Fetcher.Returned None).
Proof.
  unfold result, Fetcher._fetch_gmail_draft, Fetcher.fetch_body.
  repeat split.
  - intros ->. reflexivity.
  - intros e ->. destruct (Fetcher.service_available p); reflexivity.
  - intros ->. destruct (Fetcher.service_available p); reflexivity.
  - intros raw -> ->. destruct (Fetcher.service_available p); reflexivity.
Qed.

(** C9.  For every reference the fetcher returns: either the normalised
    snapshot of a decoded message, three strings, or [None]; it never
    raises.  A message without recipient, subject and plain-text part
    gives the snapshot of three empty strings, which is a result and not
    [None]. *)
Theorem fetcher_returns_never_raises :
  ((exists msg, result = Fetcher.Returned (Some (Fetcher.normalize msg))) \/
   result = Fetcher.Returned None) /\
  (forall e, result <> Fetcher.Raised e) /\
  (forall raw msg,
     Fetcher.service_available p = true ->
     Fetcher.drafts_get p draft_id = Fetcher.Returned (Some raw) ->
     decode raw = Some msg ->
     Fetcher.header "To" msg = EmptyString ->
     Fetcher.header "Subject" msg = EmptyString ->
     Fetcher.plain_text_body msg = EmptyString ->
     result = Fetcher.Returned
                (Some (Gmail.Content (PyStr "") (PyStr "") (PyStr ""))) /\
     result <> Fetcher.Returned None).
Proof.
  unfold result, Fetcher._fetch_gmail_draft, Fetcher.fetch_body.
  split; [|split].
  - destruct (Fetcher.service_available p); [|right; reflexivity].
    destruct (Fetcher.drafts_get p draft_id) as [[raw|]|e];
      try (right; reflexivity).
    destruct (decode raw) as [msg|]; [|right; reflexivity].
    left. exists msg. reflexivity.
  - intros e.
    destruct (Fetcher.service_available p); [|discriminate].
    destruct (Fetcher.drafts_get p draft_id) as [[raw|]|e'];
      try discriminate.
    destruct (decode raw); discriminate.
  - intros raw msg -> -> -> Hto Hsubject Hbody.
    unfold Fetcher.normalize. rewrite Hto, Hsubject, Hbody.
    split; [reflexivity | discriminate].
Qed.

End FetcherContract.

Lemma fetcher_returns_never_raises_witness :
  Fetcher._fetch_gmail_draft Sample.bare_decode Sample.bare_provider "abc123"
    = Fetcher.Returned (Some (Gmail.Content (PyStr "") (PyStr "") (PyStr ""))).
Proof.
  destruct (fetcher_returns_never_raises
              Sample.bare_decode Sample.bare_provider "abc123")
    as (_ & _ & Hbare).
  apply (Hbare "DQo="%string (Fetcher.Message [] [])); reflexivity.
Defined.

Example fetch_deleted_draft :
  Fetcher._fetch_gmail_draft Sample.bare_decode Sample.not_found_provider "abc123"
    = Fetcher.Returned None.
Proof. reflexivity. Qed.

(** The all-empty snapshot raises the flag and moves no field. *)
Example empty_snapshot_changes_nothing (local : EmailDraft) :
  sync_from_gmail local (Some (Gmail.Content (PyStr "") (PyStr "") (PyStr "")))
    = (local, true).
Proof. destruct local. reflexivity. Qed.

(** ** The access gate of the frontend *)

Lemma includes_In (l : list string) (x : string) :
  Frontend.includes l x = true <-> In x l.
Proof.
  unfold Frontend.includes. rewrite existsb_exists. split.
  - intros (y & Hy & Heq). apply String.eqb_eq in Heq. subst. exact Hy.
  - intros Hin. exists x. split; [exact Hin | apply String.eqb_refl].
Qed.

Lemma gate_closed (config : Frontend.Config) (userId : string) :
  Frontend.allowedNumbers config <> [] ->
  ~ In (Frontend.before_at userId) (Frontend.allowedNumbers config) ->
  (negb (Nat.eqb (List.length (Frontend.allowedNumbers config)) 0)
   && negb (Frontend.includes (Frontend.allowedNumbers config)
                              (Frontend.before_at userId)))%bool = true.
Proof.
  intros Hne Hnot. apply andb_true_iff. split.
  - destruct (Frontend.allowedNumbers config); [contradiction | reflexivity].
  - apply negb_true_iff. apply not_true_is_false.
    intros H. apply Hnot, includes_In, H.
Qed.

(** C10.  When the list of allowed numbers is not empty and the part of
    the sender's id before ['@'] is not in it, the handler has no effect at
    all: no media download, no typing indicator, no request to the agent
    backend and no reply.  This holds for the handler with attachments and
    for its text-only revision. *)
Theorem unauthorized_sender_ignored
    (config : Frontend.Config) (env : Frontend.Env)
    (m : Frontend.Message) (chat : Frontend.Chat) :
  Frontend.allowedNumbers config <> [] ->
  ~ In (Frontend.before_at (Frontend.from m)) (Frontend.allowedNumbers config) ->
  Frontend.handleMessage config env m chat = [] /\
  Frontend.handleMessage_text_only config env m chat = [].
Proof.
  intros Hne Hnot.
  pose proof (gate_closed config (Frontend.from m) Hne Hnot) as Hgate.
  unfold Frontend.handleMessage, Frontend.handleMessage_text_only.
  rewrite Hgate.
  destruct (Frontend.isGroup chat); [split; reflexivity|].
  destruct (String.eqb (Frontend.from m) "status@broadcast" || Frontend.broadcast m)%bool;
    [split; reflexivity|].
  destruct (Frontend.fromMe m); [split; reflexivity|].
  destruct (Frontend.blank (Frontend.body m)); split; reflexivity.
Qed.

Lemma unauthorized_sender_ignored_witness :
  Frontend.handleMessage Sample.restricted Sample.echo
    (Sample.hello_from "15550001111@c.us") Sample.private_chat = [].
Proof.
  apply (unauthorized_sender_ignored Sample.restricted Sample.echo
           (Sample.hello_from "15550001111@c.us") Sample.private_chat).
  - discriminate.
  - simpl. intros [H|[]]. discriminate.
Defined.

(** The allowed sender is served: typing indicator, request, reply. *)
Example authorized_sender_served :
  Frontend.handleMessage Sample.restricted Sample.echo
    (Sample.hello_from "628118491177@c.us") Sample.private_chat
  = [ Frontend.SendStateTyping;
      Frontend.PostChat
        (Frontend.mkPayload "628118491177@c.us" "show my drafts" None) 180000;
      Frontend.ClearState;
      Frontend.Reply "show my drafts" ].
Proof. reflexivity. Qed.

(** With an empty list every sender is served. *)
Example open_access_served :
  Frontend.handleMessage (Frontend.mkConfig []) Sample.echo
    (Sample.hello_from "15550001111@c.us") Sample.private_chat
  <> [].
Proof. discriminate. Qed.

(* ===================================================================== *)
(** * Part III: further properties of the code                            *)
(* ===================================================================== *)

(** ** The list operation, record by record *)

Lemma update_keeps_reference (g : Gmail.content) (d : EmailDraft) :
  reference_of (update_from_gmail g d) = reference_of d.
Proof. reflexivity. Qed.

Lemma update_twice (g : Gmail.content) (d : EmailDraft) :
  update_from_gmail g (update_from_gmail g d) = update_from_gmail g d.
Proof. unfold update_from_gmail. simpl. rewrite !py_or_idem. reflexivity. Qed.

Lemma py_or_keeps_content (a b : pyval) :
  implb (truthy b) (truthy (py_or a b)) = true.
Proof.
  unfold py_or. destruct (truthy a) eqn:Ea; [rewrite Ea|];
    destruct (truthy b); reflexivity.
Qed.

Lemma traced_more (call : string * option Gmail.content)
    (calls : list (string * option Gmail.content)) (d d' : EmailDraft) :
  traced calls d d' -> traced (call :: calls) d d'.
Proof.
  intros [H|(r & g & Hr & Hin & Hd)]; [left; exact H|].
  right. exists r, g. repeat split; auto. right. exact Hin.
Qed.

Lemma traced_protected (calls : list (string * option Gmail.content))
    (d d' : EmailDraft) :
  traced calls d d' -> same_protected d d'.
Proof.
  intros [->|(r & g & _ & _ & ->)]; repeat split.
Qed.

Lemma traced_not_blanked (calls : list (string * option Gmail.content))
    (d d' : EmailDraft) :
  traced calls d d' -> no_field_blanked d d' = true.
Proof.
  unfold no_field_blanked.
  intros [->|(r & g & _ & _ & ->)].
  - destruct (truthy (to_email d)), (truthy (subject d)), (truthy (body d));
      reflexivity.
  - simpl. rewrite !py_or_keeps_content. reflexivity.
Qed.

(** The loop once more, now with every returned record traced to the
    calls of this very pass. *)
Lemma sync_loop_trace (drafts : list EmailDraft) :
  forall (n : nat) (w : world),
  exists (calls : list (string * option Gmail.content))
         (out : list EmailDraft) (w' : world),
    sync_loop drafts n w
      = ((out, n + List.length (List.filter answered calls)), w') /\
    api_calls w' = api_calls w ++ calls /\
    gmail w' = gmail w /\ rows w' = rows w /\ commits w' = commits w /\
    Forall2 (traced calls) drafts out.
Proof.
  induction drafts as [|d rest IH]; intros n w.
  - exists [], [], w. simpl. rewrite app_nil_r, Nat.add_0_r.
    repeat split. constructor.
  - simpl. unfold bind. rewrite sync_draft_unfold.
    destruct (reference_of d) as [r|] eqn:Er.
    + set (answer := gmail w (List.length (api_calls w)) r).
      cbv zeta.
      destruct (sync_from_gmail d answer) as [d' synced] eqn:Es.
      destruct (IH (if synced then S n else n)
                   (mkWorld (gmail w) (api_calls w ++ [(r, answer)])
                            (rows w) (commits w)))
        as (calls & out & w2 & Heq & Hc & Hg & Hrows & Hcm & Hall).
      rewrite Heq. exists ((r, answer) :: calls), (d' :: out), w2.
      simpl in Hc, Hg, Hrows, Hcm.
      rewrite Hc, <- app_assoc.
      assert (Hrest : Forall2 (traced ((r, answer) :: calls)) rest out).
      { eapply Forall2_impl; [exact Hall|]. intros x y. apply traced_more. }
      destruct answer as [g|]; simpl in Es; injection Es as <- <-;
        cbn [List.filter answered snd List.length app].
      * repeat split; auto.
        -- unfold ret. f_equal. f_equal. lia.
        -- constructor; [|exact Hrest].
           right. exists r, g. repeat split; auto. left. reflexivity.
      * repeat split; auto.
        constructor; [left; reflexivity | exact Hrest].
    + destruct (IH n w) as (calls & out & w2 & Heq & Hc & Hg & Hrows & Hcm & Hall).
      rewrite Heq. exists calls, (d :: out), w2. simpl.
      repeat split; auto.
      constructor; [left; reflexivity | exact Hall].
Qed.

(** The whole list operation in one equation. *)
Lemma list_run (drafts : list EmailDraft) (w : world) :
  exists (calls : list (string * option Gmail.content))
         (out : list EmailDraft),
    list_drafts_tool drafts w
      = (out,
         mkWorld (gmail w) (api_calls w ++ calls)
                 (if existsb answered calls then flush out (rows w) else rows w)
                 (if existsb answered calls then S (commits w) else commits w)) /\
    Forall2 (traced calls) drafts out.
Proof.
  destruct (sync_loop_trace drafts 0 w)
    as (calls & out & w1 & Heq & Hc & Hg & Hrows & Hcm & Hall).
  exists calls, out. split; [|exact Hall].
  unfold list_drafts_tool, bind. rewrite Heq. simpl.
  rewrite positive_filter_existsb.
  destruct w1 as [g1 a1 r1 c1]. simpl in *. subst.
  destruct (existsb answered calls); reflexivity.
Qed.

(** X1.  A list returns as many records as it was given, in the same
    order, and each returned record has the [id], [owner],
    [gmail_draft_id], [status], [expiry] and [created_at] of the record at
    its position. *)
Theorem list_keeps_order_and_protected_columns
    (drafts : list EmailDraft) (w : world) :
  Forall2 same_protected drafts (fst (list_drafts_tool drafts w)).
Proof.
  destruct (list_run drafts w) as (calls & out & Heq & Hall).
  rewrite Heq. simpl.
  eapply Forall2_impl; [exact Hall|]. intros d d'. apply traced_protected.
Qed.

(** X2.  Every record a list returns is the record it was given, or that
    record updated from a snapshot that this very invocation fetched
    under the record's own reference.  No record is changed by another
    record's snapshot or without a fetch. *)
Theorem list_changes_are_traced (drafts : list EmailDraft) (w : world) :
  exists calls,
    api_calls (snd (list_drafts_tool drafts w)) = api_calls w ++ calls /\
    Forall2 (traced calls) drafts (fst (list_drafts_tool drafts w)).
Proof.
  destruct (list_run drafts w) as (calls & out & Heq & Hall).
  rewrite Heq. simpl. exists calls. split; [reflexivity | exact Hall].
Qed.

(** X3.  In a list a record without a reference comes back unchanged at
    the position it had, whatever happens to the other records. *)
Theorem list_passes_unreferenced_through
    (drafts : list EmailDraft) (w : world) (i : nat) (d : EmailDraft) :
  drafts !! i = Some d ->
  reference_of d = None ->
  fst (list_drafts_tool drafts w) !! i = Some d.
Proof.
  intros Hi Hnone.
  destruct (list_run drafts w) as (calls & out & Heq & Hall).
  rewrite Heq. simpl.
  destruct (Forall2_lookup_l _ _ _ _ _ Hall Hi) as (d' & Hd' & Ht).
  rewrite Hd'. f_equal.
  destruct Ht as [->|(r & g & Hr & _)]; [reflexivity | congruence].
Qed.

(** X4.  A list never blanks a field: a recipient, subject or body that
    held a non-empty string before holds a non-empty string afterwards,
    for every record and every answer of Gmail. *)
Theorem list_never_blanks_a_field (drafts : list EmailDraft) (w : world) :
  Forall2 (fun d d' => no_field_blanked d d' = true)
          drafts (fst (list_drafts_tool drafts w)).
Proof.
  destruct (list_run drafts w) as (calls & out & Heq & Hall).
  rewrite Heq. simpl.
  eapply Forall2_impl; [exact Hall|]. intros d d'. apply traced_not_blanked.
Qed.

Lemma list_passes_unreferenced_through_witness :
  fst (list_drafts_tool Sample.five Sample.mixed) !! 2 = Some Sample.unpublished.
Proof.
  apply (list_passes_unreferenced_through Sample.five Sample.mixed 2
           Sample.unpublished); reflexivity.
Defined.

(** ** Listing and selecting while Gmail stands still *)

Lemma synced_view_twice (remote : string -> option Gmail.content)
    (d : EmailDraft) :
  synced_view remote (synced_view remote d) = synced_view remote d.
Proof.
  unfold synced_view.
  destruct (reference_of d) as [r|] eqn:Er.
  - destruct (remote r) as [g|] eqn:Eg; simpl.
    + rewrite update_keeps_reference, Er, Eg. simpl. apply update_twice.
    + rewrite Er, Eg. reflexivity.
  - simpl. rewrite Er. reflexivity.
Qed.

Lemma sync_loop_steady (remote : string -> option Gmail.content)
    (drafts : list EmailDraft) :
  forall (n : nat) (w : world),
    (forall k r, gmail w k r = remote r) ->
    exists m w',
      sync_loop drafts n w = ((map (synced_view remote) drafts, m), w') /\
      gmail w' = gmail w.
Proof.
  induction drafts as [|d rest IH]; intros n w Hsteady.
  - exists n, w. split; reflexivity.
  - simpl. unfold bind. rewrite sync_draft_unfold. unfold synced_view at 1.
    destruct (reference_of d) as [r|] eqn:Er.
    + cbv zeta. rewrite Hsteady.
      destruct (sync_from_gmail d (remote r)) as [d' synced] eqn:Es.
      destruct (IH (if synced then S n else n)
                   (mkWorld (gmail w) (api_calls w ++ [(r, remote r)])
                            (rows w) (commits w)) Hsteady)
        as (m & w2 & Heq & Hg).
      rewrite Heq. exists m, w2. split; [reflexivity | exact Hg].
    + destruct (IH n w Hsteady) as (m & w2 & Heq & Hg).
      rewrite Heq. exists m, w2. split; [reflexivity | exact Hg].
Qed.

Lemma list_steady (remote : string -> option Gmail.content)
    (drafts : list EmailDraft) (w : world) :
  (forall k r, gmail w k r = remote r) ->
  fst (list_drafts_tool drafts w) = map (synced_view remote) drafts /\
  gmail (snd (list_drafts_tool drafts w)) = gmail w.
Proof.
  intros Hsteady.
  destruct (sync_loop_steady remote drafts 0 w Hsteady) as (m & w1 & Heq & Hg).
  unfold list_drafts_tool, bind. rewrite Heq.
  destruct (0 <? m)%nat; simpl; split; auto.
Qed.

Section Steady.

Variable remote : string -> option Gmail.content.
Variable drafts : list EmailDraft.
Variable w : world.
Hypothesis steady : forall k r, gmail w k r = remote r.

(** X5.  While Gmail gives the same answer for a reference at every
    call, a list returns each record merged with the answer for its own
    reference, and a record without a reference as it is: the list is the
    record-wise sync, whatever the order and the number of records. *)
Theorem list_is_recordwise_sync :
  fst (list_drafts_tool drafts w) = map (synced_view remote) drafts.
Proof. apply list_steady, steady. Qed.

(** X6.  While Gmail stands still, listing again what a list returned
    returns the same records: the second list moves nothing. *)
Theorem relisting_is_stable :
  let first := list_drafts_tool drafts w in
  fst (list_drafts_tool (fst first) (snd first)) = fst first.
Proof.
  cbv zeta.
  destruct (list_steady remote drafts w steady) as (Hout & Hg).
  assert (steady' : forall k r,
             gmail (snd (list_drafts_tool drafts w)) k r = remote r)
    by (intros k r; rewrite Hg; apply steady).
  destruct (list_steady remote (fst (list_drafts_tool drafts w)) _ steady')
    as (Hout' & _).
  rewrite Hout', Hout, map_map.
  apply map_ext. intros d. apply synced_view_twice.
Qed.

(** X7.  While Gmail stands still, selecting a record that a list has
    just returned fetches it again and shows it exactly as the list
    showed it. *)
Theorem select_after_list_shows_the_same (d : EmailDraft) :
  let listed := list_drafts_tool drafts w in
  In d (fst listed) ->
  fst (fst (select_sync d (snd listed))) = d.
Proof.
  cbv zeta. intros Hin.
  destruct (list_steady remote drafts w steady) as (Hout & Hg).
  rewrite Hout in Hin. apply in_map_iff in Hin. destruct Hin as (d0 & <- & _).
  rewrite select_sync_unfold.
  destruct (reference_of (synced_view remote d0)) as [r|] eqn:Er;
    [|reflexivity].
  cbv zeta. simpl. rewrite Hg, steady.
  pose proof (synced_view_twice remote d0) as Htwice.
  unfold synced_view at 1 in Htwice. rewrite Er in Htwice. exact Htwice.
Qed.

End Steady.

Lemma list_is_recordwise_sync_witness :
  fst (list_drafts_tool Sample.five Sample.mixed)
    = map (synced_view (gmail Sample.mixed 0)) Sample.five.
Proof.
  apply (list_is_recordwise_sync (gmail Sample.mixed 0) Sample.five Sample.mixed).
  intros k r. reflexivity.
Defined.

Lemma relisting_is_stable_witness :
  fst (list_drafts_tool (fst (list_drafts_tool Sample.five Sample.mixed))
                        (snd (list_drafts_tool Sample.five Sample.mixed)))
    = fst (list_drafts_tool Sample.five Sample.mixed).
Proof.
  apply (relisting_is_stable (gmail Sample.mixed 0) Sample.five Sample.mixed).
  intros k r. reflexivity.
Defined.

Lemma select_after_list_shows_the_same_witness :
  fst (fst (select_sync (update_from_gmail Sample.edited Sample.meeting)
                        (snd (list_drafts_tool Sample.five Sample.mixed))))
    = update_from_gmail Sample.edited Sample.meeting.
Proof.
  apply (select_after_list_shows_the_same
           (gmail Sample.mixed 0) Sample.five Sample.mixed).
  - intros k r. reflexivity.
  - left. reflexivity.
Defined.

(** ** What a list leaves in the table *)

Lemma flush_other (session : list EmailDraft) :
  forall (tbl : gmap string EmailDraft) (k : string),
    ~ In k (map id session) -> flush session tbl !! k = tbl !! k.
Proof.
  induction session as [|a l IH]; intros tbl k Hk; [reflexivity|].
  unfold flush in *. simpl. rewrite IH.
  - apply lookup_insert_ne. intros E. apply Hk. left. exact E.
  - intros Hin. apply Hk. right. exact Hin.
Qed.

Lemma flush_stored (session : list EmailDraft) :
  forall (tbl : gmap string EmailDraft) (d : EmailDraft),
    List.NoDup (map id session) -> In d session ->
    flush session tbl !! id d = Some d.
Proof.
  induction session as [|a l IH]; intros tbl d Hnd Hin; [destruct Hin|].
  inversion Hnd as [|x xs Hnotin Hnd']; subst.
  destruct Hin as [->|Hin].
  - change (flush (d :: l) tbl) with (flush l (<[id d := d]> tbl)).
    rewrite flush_other by exact Hnotin. apply lookup_insert_eq.
  - change (flush (a :: l) tbl) with (flush l (<[id a := a]> tbl)).
    apply IH; assumption.
Qed.

Lemma same_protected_ids (drafts out : list EmailDraft) :
  Forall2 same_protected drafts out -> map id out = map id drafts.
Proof.
  induction 1 as [|d d' l l' (Hid & _) _ IH]; simpl; [reflexivity|].
  rewrite Hid, IH. reflexivity.
Qed.

(** X8.  A list touches no row but those of the records it was given:
    the row of any other draft is after the list what it was before. *)
Theorem list_leaves_other_rows
    (drafts : list EmailDraft) (w : world) (k : string) :
  ~ In k (map id drafts) ->
  rows (snd (list_drafts_tool drafts w)) !! k = rows w !! k.
Proof.
  intros Hk.
  destruct (list_run drafts w) as (calls & out & Heq & Hall).
  rewrite Heq. simpl.
  destruct (existsb answered calls); [|reflexivity].
  apply flush_other.
  rewrite (same_protected_ids drafts out); [exact Hk|].
  eapply Forall2_impl; [exact Hall|]. intros d d'. apply traced_protected.
Qed.

(** X9.  When a list over records of distinct ids has committed, the
    table holds every record exactly as the list returned it. *)
Theorem list_persists_what_it_returns
    (drafts : list EmailDraft) (w : world) (d : EmailDraft) :
  List.NoDup (map id drafts) ->
  commits (snd (list_drafts_tool drafts w)) <> commits w ->
  In d (fst (list_drafts_tool drafts w)) ->
  rows (snd (list_drafts_tool drafts w)) !! id d = Some d.
Proof.
  destruct (list_run drafts w) as (calls & out & Heq & Hall).
  rewrite Heq. simpl. intros Hnd Hcommit Hin.
  destruct (existsb answered calls); [|contradiction].
  apply flush_stored; [|exact Hin].
  rewrite (same_protected_ids drafts out); [exact Hnd|].
  eapply Forall2_impl; [exact Hall|]. intros x y. apply traced_protected.
Qed.

Lemma list_leaves_other_rows_witness :
  rows (snd (list_drafts_tool [Sample.meeting] Sample.mixed)) !! "draft-2"%string
    = rows Sample.mixed !! "draft-2"%string.
Proof.
  apply (list_leaves_other_rows [Sample.meeting] Sample.mixed "draft-2"%string).
  simpl. intros [H|[]]. discriminate.
Defined.

Lemma list_persists_what_it_returns_witness :
  rows (snd (list_drafts_tool [Sample.meeting] Sample.mixed)) !! "draft-1"%string
    = Some (update_from_gmail Sample.edited Sample.meeting).
Proof.
  apply (list_persists_what_it_returns [Sample.meeting] Sample.mixed
           (update_from_gmail Sample.edited Sample.meeting)).
  - repeat constructor. simpl. intros [].
  - vm_compute. discriminate.
  - left. reflexivity.
Defined.

(** ** The message handler, case by case *)

(** What the media block hands on. *)
Lemma media_block_cases (m : Frontend.Message) (text : string) :
  (Frontend.media_block m text = ([], Some (text, None)) /\
   Frontend.hasMedia m = false) \/
  (Frontend.media_block m text = ([Frontend.DownloadMedia], Some (text, None)) /\
   Frontend.hasMedia m = true /\ ~ carries_document m) \/
  (Frontend.media_block m text = ([Frontend.DownloadMedia], None) /\
   Frontend.hasMedia m = true /\ ~ carries_document m /\
   Frontend.blank text = true) \/
  (exists media name,
     Frontend.media_block m text
       = ([Frontend.DownloadMedia],
          Some (if Frontend.blank text
                then "Please summarize this document."%string else text,
                Some (Frontend.mkFileData (Frontend.data media) name
                                          (Frontend.mimetype media)))) /\
     Frontend.hasMedia m = true /\
     Frontend.downloadMedia m = Frontend.Downloaded media /\
     Frontend.includes Frontend.supportedTypes (Frontend.mimetype media) = true /\
     name <> EmptyString).
Proof.
  unfold Frontend.media_block, carries_document.
  destruct (Frontend.hasMedia m) eqn:Hm; [|left; split; reflexivity].
  right.
  destruct (Frontend.downloadMedia m) as [| |media] eqn:Hd.
  - left. repeat split. intros (_ & media & Hmedia & _). discriminate.
  - left. repeat split. intros (_ & media & Hmedia & _). discriminate.
  - destruct (Frontend.includes Frontend.supportedTypes (Frontend.mimetype media))
      eqn:Hs.
    + right. right. eexists media, _. split; [reflexivity|].
      repeat split; auto.
      destruct (Frontend.filename media) as [[|c s]|]; discriminate.
    + assert (Hno : ~ (true = true /\
                       exists media0,
                         Frontend.Downloaded media = Frontend.Downloaded media0 /\
                         Frontend.includes Frontend.supportedTypes
                           (Frontend.mimetype media0) = true)).
      { intros (_ & media0 & Heq & Hin). injection Heq as <-. congruence. }
      destruct (Frontend.blank text) eqn:Hb.
      * right. left. repeat split; auto.
      * left. repeat split; auto.
Qed.

(** The checks before the media block, as one condition. *)
Lemma handler_cases (config : Frontend.Config) (env : Frontend.Env)
    (m : Frontend.Message) (chat : Frontend.Chat) :
  Frontend.handleMessage config env m chat = [] \/
  (Frontend.isGroup chat = false /\
   Frontend.from m <> "status@broadcast"%string /\
   Frontend.broadcast m = false /\ Frontend.fromMe m = false /\
   (Frontend.allowedNumbers config = [] \/
    In (Frontend.before_at (Frontend.from m)) (Frontend.allowedNumbers config)) /\
   Frontend.handleMessage config env m chat =
     match Frontend.media_block m (Frontend.body m) with
     | (effs, None) => effs
     | (effs, Some (messageText, fileData)) =>
         if Frontend.blank messageText then effs
         else effs ++ Frontend.process env (Frontend.from m) messageText fileData
     end).
Proof.
  unfold Frontend.handleMessage.
  destruct (Frontend.isGroup chat); [left; reflexivity|].
  destruct (String.eqb (Frontend.from m) "status@broadcast") eqn:Hfrom;
    [left; reflexivity|].
  destruct (Frontend.broadcast m); [left; reflexivity|].
  destruct (Frontend.fromMe m); [left; reflexivity|]. simpl.
  destruct (Frontend.allowedNumbers config) as [|n ns] eqn:Hallowed.
  - right. simpl. repeat split; auto.
    apply String.eqb_neq. exact Hfrom.
  - destruct (Frontend.includes (n :: ns) (Frontend.before_at (Frontend.from m)))
      eqn:Hin; simpl; [|left; reflexivity].
    right. repeat split; auto.
    + apply String.eqb_neq. exact Hfrom.
    + right. exact (proj1 (includes_In (n :: ns) _) Hin).
Qed.

Lemma process_shape (env : Frontend.Env) (userId text : string)
    (fileData : option Frontend.FileData) :
  exists answer tail,
    (tail = [] \/ tail = [Frontend.Reply Frontend.technical_difficulties]) /\
    (tail = [] \/ Frontend.reply_throws env = true) /\
    answer = match Frontend.backend env (Frontend.mkPayload userId text fileData) with
             | Some r => Frontend.resp_response r
             | None => Frontend.trouble_connecting
             end /\
    Frontend.process env userId text fileData =
      [Frontend.SendStateTyping;
       Frontend.PostChat (Frontend.mkPayload userId text fileData)
                         (match fileData with Some _ => 300000 | None => 180000 end)%Z;
       Frontend.ClearState; Frontend.Reply answer] ++ tail.
Proof.
  unfold Frontend.process, Frontend.sendMessageToAgent.
  destruct (Frontend.backend env _) as [r|]; simpl;
    destruct (Frontend.reply_throws env); simpl;
    eexists _, _; repeat split; eauto.
Qed.

(** X10.  Messages of a group chat, status or broadcast messages and the
    account's own messages have no effect at all, in both revisions of the
    handler and whatever the access list says. *)
Theorem ignored_chats_have_no_effect
    (config : Frontend.Config) (env : Frontend.Env)
    (m : Frontend.Message) (chat : Frontend.Chat) :
  Frontend.isGroup chat = true \/
  Frontend.from m = "status@broadcast"%string \/
  Frontend.broadcast m = true \/ Frontend.fromMe m = true ->
  Frontend.handleMessage config env m chat = [] /\
  Frontend.handleMessage_text_only config env m chat = [].
Proof.
  unfold Frontend.handleMessage, Frontend.handleMessage_text_only.
  intros [H|[H|[H|H]]]; rewrite H; simpl.
  - split; reflexivity.
  - destruct (Frontend.isGroup chat); split; reflexivity.
  - rewrite orb_true_r. destruct (Frontend.isGroup chat); split; reflexivity.
  - destruct (Frontend.isGroup chat); [split; reflexivity|].
    destruct (_ || _)%bool; split; reflexivity.
Qed.

(** X11.  For a sender whose number is on the access list the handler
    does exactly what it does with an empty list: being listed is the same
    as open access, in both revisions. *)
Theorem allowed_sender_as_open_access
    (config : Frontend.Config) (env : Frontend.Env)
    (m : Frontend.Message) (chat : Frontend.Chat) :
  In (Frontend.before_at (Frontend.from m)) (Frontend.allowedNumbers config) ->
  Frontend.handleMessage config env m chat
    = Frontend.handleMessage (Frontend.mkConfig []) env m chat /\
  Frontend.handleMessage_text_only config env m chat
    = Frontend.handleMessage_text_only (Frontend.mkConfig []) env m chat.
Proof.
  intros Hin. apply includes_In in Hin.
  unfold Frontend.handleMessage, Frontend.handleMessage_text_only.
  rewrite Hin. simpl. rewrite andb_false_r. split; reflexivity.
Qed.

(** X12.  On a message without media the handler with attachments and
    its text-only revision do the same. *)
Theorem revisions_agree_without_media
    (config : Frontend.Config) (env : Frontend.Env)
    (m : Frontend.Message) (chat : Frontend.Chat) :
  Frontend.hasMedia m = false ->
  Frontend.handleMessage config env m chat
    = Frontend.handleMessage_text_only config env m chat.
Proof.
  intros Hm.
  unfold Frontend.handleMessage, Frontend.handleMessage_text_only,
    Frontend.media_block.
  rewrite Hm.
  destruct (Frontend.isGroup chat); [reflexivity|].
  destruct (_ || _)%bool; [reflexivity|].
  destruct (Frontend.fromMe m); [reflexivity|].
  destruct (Frontend.blank (Frontend.body m));
    destruct (_ && _)%bool; reflexivity.
Qed.

(** X13.  Every run of the handler has one of three shapes: no effect; a
    media download and nothing else; or, after at most one download, the
    typing indicator, exactly one request to the backend, the indicator
    cleared and a reply, followed at most by the apology for a reply that
    threw.  So there is never a reply without a request, a request without
    a reply, or a typing indicator left on. *)
Theorem handler_trace_shape
    (config : Frontend.Config) (env : Frontend.Env)
    (m : Frontend.Message) (chat : Frontend.Chat) :
  well_shaped (Frontend.handleMessage config env m chat).
Proof.
  destruct (handler_cases config env m chat) as [->|(_ & _ & _ & _ & _ & ->)];
    [left; reflexivity|].
  assert (Hgo : forall pre text file,
             pre = [] \/ pre = [Frontend.DownloadMedia] ->
             well_shaped (pre ++ Frontend.process env (Frontend.from m) text file)).
  { intros pre text file Hpre.
    destruct (process_shape env (Frontend.from m) text file)
      as (answer & tail & Htail & _ & _ & ->).
    right. right. eexists pre, _, _, answer, tail.
    split; [exact Hpre|]. split; [exact Htail|]. reflexivity. }
  destruct (media_block_cases m (Frontend.body m))
    as [(-> & _)|[(-> & _)|[(-> & _)|(media & name & -> & _)]]].
  - destruct (Frontend.blank (Frontend.body m)); [left; reflexivity|].
    apply Hgo. left. reflexivity.
  - destruct (Frontend.blank (Frontend.body m)); [right; left; reflexivity|].
    apply Hgo. right. reflexivity.
  - right. left. reflexivity.
  - destruct (Frontend.blank (Frontend.body m)) eqn:Hb.
    + change (Frontend.blank "Please summarize this document.") with false.
      apply Hgo. right. reflexivity.
    + rewrite Hb. apply Hgo. right. reflexivity.
Qed.

Lemma ignored_chats_have_no_effect_witness :
  Frontend.handleMessage (Frontend.mkConfig []) Sample.echo
    (Sample.hello_from "628118491177@c.us") (Frontend.mkChat true) = [].
Proof.
  apply (ignored_chats_have_no_effect (Frontend.mkConfig []) Sample.echo
           (Sample.hello_from "628118491177@c.us") (Frontend.mkChat true)).
  left. reflexivity.
Defined.

Lemma allowed_sender_as_open_access_witness :
  Frontend.handleMessage Sample.restricted Sample.echo
    (Sample.hello_from "628118491177@c.us") Sample.private_chat
  = Frontend.handleMessage (Frontend.mkConfig []) Sample.echo
      (Sample.hello_from "628118491177@c.us") Sample.private_chat.
Proof.
  apply (allowed_sender_as_open_access Sample.restricted Sample.echo
           (Sample.hello_from "628118491177@c.us") Sample.private_chat).
  left. reflexivity.
Defined.

Lemma revisions_agree_without_media_witness :
  Frontend.handleMessage Sample.restricted Sample.echo
    (Sample.hello_from "628118491177@c.us") Sample.private_chat
  = Frontend.handleMessage_text_only Sample.restricted Sample.echo
      (Sample.hello_from "628118491177@c.us") Sample.private_chat.
Proof.
  apply (revisions_agree_without_media Sample.restricted Sample.echo
           (Sample.hello_from "628118491177@c.us") Sample.private_chat).
  reflexivity.
Defined.

(** Every request of a run, with where its parts come from. *)
Lemma posted_inversion (config : Frontend.Config) (env : Frontend.Env)
    (m : Frontend.Message) (chat : Frontend.Chat)
    (p : Frontend.Payload) (timeout : Z) :
  In (Frontend.PostChat p timeout) (Frontend.handleMessage config env m chat) ->
  exists text file,
    p = Frontend.mkPayload (Frontend.from m) text file /\
    timeout = (match file with Some _ => 300000 | None => 180000 end)%Z /\
    Frontend.blank text = false /\
    ((file = None /\ text = Frontend.body m) \/
     (exists media name,
        file = Some (Frontend.mkFileData (Frontend.data media) name
                                         (Frontend.mimetype media)) /\
        Frontend.hasMedia m = true /\
        Frontend.downloadMedia m = Frontend.Downloaded media /\
        Frontend.includes Frontend.supportedTypes (Frontend.mimetype media) = true /\
        name <> EmptyString /\
        text = if Frontend.blank (Frontend.body m)
               then "Please summarize this document."%string
               else Frontend.body m)).
Proof.
  destruct (handler_cases config env m chat) as [->|(_ & _ & _ & _ & _ & ->)];
    [intros []|].
  assert (Hgo : forall pre text file,
             pre = [] \/ pre = [Frontend.DownloadMedia] ->
             In (Frontend.PostChat p timeout)
                (pre ++ Frontend.process env (Frontend.from m) text file) ->
             p = Frontend.mkPayload (Frontend.from m) text file /\
             timeout = (match file with Some _ => 300000 | None => 180000 end)%Z).
  { intros pre text file Hpre Hin.
    destruct (process_shape env (Frontend.from m) text file)
      as (answer & tail & Htail & _ & _ & Hp).
    rewrite Hp in Hin. apply in_app_or in Hin.
    destruct Hin as [Hin|Hin].
    - destruct Hpre as [->| ->]; simpl in Hin; [destruct Hin|].
      destruct Hin as [Hin|[]]. discriminate.
    - simpl in Hin.
      destruct Hin as [Hin|[Hin|[Hin|[Hin|Hin]]]]; try discriminate.
      + injection Hin as <- <-. split; reflexivity.
      + destruct Htail as [->| ->]; simpl in Hin; [destruct Hin|].
        destruct Hin as [Hin|[]]. discriminate. }
  destruct (media_block_cases m (Frontend.body m))
    as [(-> & _)|[(-> & _)|[(-> & _)|(media & name & -> & Hm & Hd & Hs & Hn)]]].
  - destruct (Frontend.blank (Frontend.body m)) eqn:Hb; [intros []|].
    intros Hin. destruct (Hgo [] _ _ (or_introl eq_refl) Hin) as (-> & ->).
    exists (Frontend.body m), None. repeat split; auto.
  - destruct (Frontend.blank (Frontend.body m)) eqn:Hb.
    + intros [Hin|[]]. discriminate.
    + intros Hin. destruct (Hgo _ _ _ (or_intror eq_refl) Hin) as (-> & ->).
      exists (Frontend.body m), None. repeat split; auto.
  - intros [Hin|[]]. discriminate.
  - destruct (Frontend.blank (Frontend.body m)) eqn:Hb.
    + change (Frontend.blank "Please summarize this document.") with false.
      intros Hin. destruct (Hgo _ _ _ (or_intror eq_refl) Hin) as (-> & ->).
      eexists _, _. split; [reflexivity|]. split; [reflexivity|].
      split; [reflexivity|]. right. exists media, name.
      repeat split; auto.
    + rewrite Hb.
      intros Hin. destruct (Hgo _ _ _ (or_intror eq_refl) Hin) as (-> & ->).
      eexists _, _. split; [reflexivity|]. split; [reflexivity|].
      split; [exact Hb|]. right. exists media, name.
      repeat split; auto.
Qed.

Section Requests.

Variable config : Frontend.Config.
Variable env : Frontend.Env.
Variable m : Frontend.Message.
Variable chat : Frontend.Chat.
Variable p : Frontend.Payload.
Variable timeout : Z.
Hypothesis posted :
  In (Frontend.PostChat p timeout) (Frontend.handleMessage config env m chat).

(** X14.  Whatever the handler sends to the backend carries the full
    chat id of the sender as [user_id] and a message that is neither
    empty nor made of spaces, tabs and line breaks only: the text of the
    WhatsApp message or, on a request that carries a file, the summary
    prompt. *)
Theorem request_names_sender_and_has_text :
  Frontend.user_id p = Frontend.from m /\
  Frontend.blank (Frontend.message p) = false /\
  (Frontend.message p = Frontend.body m \/
   Frontend.message p = "Please summarize this document."%string /\
   Frontend.file p <> None).
Proof.
  destruct (posted_inversion config env m chat p timeout posted)
    as (text & file & -> & _ & Hb & Hfile). simpl.
  repeat split; auto.
  destruct Hfile as [(_ & ->)|(media & name & -> & _ & _ & _ & _ & ->)];
    [left; reflexivity|].
  destruct (Frontend.blank (Frontend.body m));
    [right; split; [reflexivity | discriminate] | left; reflexivity].
Qed.

(** X15.  A request carries a file only if the message had media that
    was downloaded and whose type is one of the supported document types;
    the file then has that type, the downloaded data and a non-empty name,
    and the request is given five minutes.  A request without a file is
    given three minutes. *)
Theorem request_file_is_a_supported_document :
  match Frontend.file p with
  | None => timeout = 180000%Z
  | Some fd =>
      timeout = 300000%Z /\
      Frontend.hasMedia m = true /\
      Frontend.includes Frontend.supportedTypes (Frontend.fd_mime fd) = true /\
      Frontend.fd_name fd <> EmptyString /\
      exists media, Frontend.downloadMedia m = Frontend.Downloaded media /\
                    Frontend.fd_data fd = Frontend.data media /\
                    Frontend.fd_mime fd = Frontend.mimetype media
  end.
Proof.
  destruct (posted_inversion config env m chat p timeout posted)
    as (text & file & -> & -> & _ & Hfile). simpl.
  destruct Hfile as [(-> & _)|(media & name & -> & Hm & Hd & Hs & Hn & _)];
    [reflexivity|].
  simpl. repeat split; auto. exists media. repeat split; auto.
Qed.

End Requests.

Lemma request_names_sender_and_has_text_witness :
  Frontend.user_id (Frontend.mkPayload "628118491177@c.us" "show my drafts" None)
    = "628118491177@c.us"%string.
Proof.
  apply (request_names_sender_and_has_text Sample.restricted Sample.echo
           (Sample.hello_from "628118491177@c.us") Sample.private_chat
           (Frontend.mkPayload "628118491177@c.us" "show my drafts" None)
           180000%Z).
  right. left. reflexivity.
Defined.

Lemma request_file_is_a_supported_document_witness :
  300000%Z = 300000%Z /\
  Frontend.includes Frontend.supportedTypes "application/pdf" = true.
Proof.
  destruct (request_file_is_a_supported_document Sample.restricted Sample.echo
              (Cases.document_from "628118491177@c.us") Sample.private_chat
              (Frontend.mkPayload "628118491177@c.us"
                 "Please summarize this document." (Some Cases.document_file))
              300000%Z)
    as (Htimeout & _ & Hmime & _).
  - right. right. left. reflexivity.
  - split; [exact Htimeout | exact Hmime].
Defined.

(** X16.  Every reply of a run is the answer of the backend to the
    request of that run, the fixed "trouble connecting" text when that
    request failed, or the fixed apology after a reply that threw: the
    sender never sees an error message of the program. *)
Theorem replies_are_answers_or_apologies
    (config : Frontend.Config) (env : Frontend.Env)
    (m : Frontend.Message) (chat : Frontend.Chat) (text : string) :
  In (Frontend.Reply text) (Frontend.handleMessage config env m chat) ->
  (text = Frontend.technical_difficulties /\ Frontend.reply_throws env = true) \/
  exists p timeout,
    In (Frontend.PostChat p timeout) (Frontend.handleMessage config env m chat) /\
    text = match Frontend.backend env p with
           | Some r => Frontend.resp_response r
           | None => Frontend.trouble_connecting
           end.
Proof.
  destruct (handler_cases config env m chat) as [->|(_ & _ & _ & _ & _ & ->)];
    [intros []|].
  assert (Hgo : forall pre msg file,
             pre = [] \/ pre = [Frontend.DownloadMedia] ->
             In (Frontend.Reply text)
                (pre ++ Frontend.process env (Frontend.from m) msg file) ->
             (text = Frontend.technical_difficulties /\
              Frontend.reply_throws env = true) \/
             exists p timeout,
               In (Frontend.PostChat p timeout)
                  (pre ++ Frontend.process env (Frontend.from m) msg file) /\
               text = match Frontend.backend env p with
                      | Some r => Frontend.resp_response r
                      | None => Frontend.trouble_connecting
                      end).
  { intros pre msg file Hpre Hin.
    destruct (process_shape env (Frontend.from m) msg file)
      as (answer & tail & Htail & Hthrows & Hanswer & Hp).
    rewrite Hp in *. apply in_app_or in Hin.
    destruct Hin as [Hin|Hin].
    - destruct Hpre as [->| ->]; simpl in Hin; [destruct Hin|].
      destruct Hin as [Hin|[]]. discriminate.
    - simpl in Hin.
      destruct Hin as [Hin|[Hin|[Hin|[Hin|Hin]]]]; try discriminate.
      + injection Hin as <-. right. eexists _, _. split.
        * apply in_or_app. right. right. left. reflexivity.
        * exact Hanswer.
      + destruct Htail as [->| ->]; simpl in Hin; [destruct Hin|].
        destruct Hin as [Hin|[]]. injection Hin as <-. left.
        destruct Hthrows as [Hnil|Ht]; [discriminate | split; auto]. }
  destruct (media_block_cases m (Frontend.body m))
    as [(-> & _)|[(-> & _)|[(-> & _)|(media & name & -> & _)]]].
  - destruct (Frontend.blank (Frontend.body m)); [intros []|].
    apply Hgo. left. reflexivity.
  - destruct (Frontend.blank (Frontend.body m)).
    + intros [Hin|[]]. discriminate.
    + apply Hgo. right. reflexivity.
  - intros [Hin|[]]. discriminate.
  - destruct (Frontend.blank (Frontend.body m)) eqn:Hb.
    + change (Frontend.blank "Please summarize this document.") with false.
      apply Hgo. right. reflexivity.
    + rewrite Hb. apply Hgo. right. reflexivity.
Qed.

Lemma replies_are_answers_or_apologies_witness :
  exists p timeout,
    In (Frontend.PostChat p timeout)
       (Frontend.handleMessage Sample.restricted Cases.unreachable
          (Sample.hello_from "628118491177@c.us") Sample.private_chat) /\
    Frontend.trouble_connecting
      = match Frontend.backend Cases.unreachable p with
        | Some r => Frontend.resp_response r
        | None => Frontend.trouble_connecting
        end.
Proof.
  destruct (replies_are_answers_or_apologies Sample.restricted Cases.unreachable
              (Sample.hello_from "628118491177@c.us") Sample.private_chat
              Frontend.trouble_connecting) as [(Habs & _)|H].
  - right. right. right. left. reflexivity.
  - discriminate Habs.
  - exact H.
Defined.

(** X17.  When the attachment of a message cannot be had, the download
    throwing or giving nothing, the handler goes on with the text alone:
    past the download it does what it does for the same message without
    media. *)
Theorem failed_download_falls_back_to_text
    (config : Frontend.Config) (env : Frontend.Env)
    (m : Frontend.Message) (chat : Frontend.Chat) :
  Frontend.hasMedia m = true ->
  Frontend.downloadMedia m = Frontend.DownloadThrows \/
  Frontend.downloadMedia m = Frontend.DownloadNull ->
  Frontend.handleMessage config env m chat = [] \/
  Frontend.handleMessage config env m chat
    = Frontend.DownloadMedia
        :: Frontend.handleMessage config env (without_media m) chat.
Proof.
  intros Hm Hd.
  unfold Frontend.handleMessage, Frontend.media_block, without_media. simpl.
  rewrite Hm.
  destruct (Frontend.isGroup chat); [left; reflexivity|].
  destruct (_ || _)%bool; [left; reflexivity|].
  destruct (Frontend.fromMe m); [left; reflexivity|].
  destruct (_ && _)%bool; [left; reflexivity|].
  right.
  destruct Hd as [-> | ->];
    destruct (Frontend.blank (Frontend.body m)); reflexivity.
Qed.

Lemma failed_download_falls_back_to_text_witness :
  Frontend.handleMessage Sample.restricted Sample.echo
    (Cases.broken_attachment_from "628118491177@c.us") Sample.private_chat
  = Frontend.DownloadMedia
      :: Frontend.handleMessage Sample.restricted Sample.echo
           (without_media (Cases.broken_attachment_from "628118491177@c.us"))
           Sample.private_chat.
Proof.
  destruct (failed_download_falls_back_to_text Sample.restricted Sample.echo
              (Cases.broken_attachment_from "628118491177@c.us")
              Sample.private_chat) as [Habs|H].
  - reflexivity.
  - left. reflexivity.
  - discriminate Habs.
  - exact H.
Defined.

(** X18.  A message whose text is empty or made of spaces, tabs, line
    feeds, vertical tabs, form feeds and carriage returns only, and that
    carries no supported document, is dropped: nothing is sent to the
    backend and the sender gets no reply; at most the media was
    downloaded. *)
Theorem blank_text_without_document_is_dropped
    (config : Frontend.Config) (env : Frontend.Env)
    (m : Frontend.Message) (chat : Frontend.Chat) :
  Frontend.blank (Frontend.body m) = true ->
  ~ carries_document m ->
  Frontend.handleMessage config env m chat = [] \/
  Frontend.handleMessage config env m chat = [Frontend.DownloadMedia].
Proof.
  intros Hb Hno.
  destruct (handler_cases config env m chat) as [->|(_ & _ & _ & _ & _ & ->)];
    [left; reflexivity|].
  destruct (media_block_cases m (Frontend.body m))
    as [(-> & _)|[(-> & _)|[(-> & _)|(media & name & _ & Hm & Hd & Hs & _)]]].
  - rewrite Hb. left. reflexivity.
  - rewrite Hb. right. reflexivity.
  - right. reflexivity.
  - exfalso. apply Hno. split; [exact Hm|]. exists media. split; assumption.
Qed.

Lemma blank_text_without_document_is_dropped_witness :
  Frontend.handleMessage Sample.restricted Sample.echo
    (Cases.photo_from "628118491177@c.us") Sample.private_chat
  = [Frontend.DownloadMedia].
Proof.
  destruct (blank_text_without_document_is_dropped Sample.restricted Sample.echo
              (Cases.photo_from "628118491177@c.us") Sample.private_chat)
    as [Habs|H].
  - reflexivity.
  - intros (_ & media & Hd & Hs). injection Hd as <-. discriminate Hs.
  - discriminate Habs.
  - exact H.
Defined.



(** ** The number of a chat id *)

Lemma before_at_no_at (s : string) :
  ~ In "@"%char (list_ascii_of_string (Frontend.before_at s)).
Proof.
  induction s as [|c r IH]; simpl; [intros []|].
  destruct (Ascii.eqb c "@") eqn:Ec; simpl; [intros []|].
  intros [H|H]; [|exact (IH H)].
  subst. rewrite Ascii.eqb_refl in Ec. discriminate.
Qed.

(** X20.  For a chat id made of a number without ['@'], an ['@'] and a
    domain, the access check looks up exactly the number; an id without
    ['@'] is looked up whole; and what is looked up never holds an
    ['@']. *)
Theorem number_of_chat_id (number domain : string) :
  ~ In "@"%char (list_ascii_of_string number) ->
  Frontend.before_at (number ++ String "@" domain) = number /\
  Frontend.before_at number = number /\
  forall chat_id,
    ~ In "@"%char (list_ascii_of_string (Frontend.before_at chat_id)).
Proof.
  intros Hno. split; [|split; [|exact before_at_no_at]].
  - induction number as [|c r IH]; simpl; [reflexivity|].
    destruct (Ascii.eqb c "@") eqn:Ec.
    + exfalso. apply Hno. left. apply Ascii.eqb_eq in Ec. subst. reflexivity.
    + rewrite IH; [reflexivity|]. intros H. apply Hno. right. exact H.
  - induction number as [|c r IH]; simpl; [reflexivity|].
    destruct (Ascii.eqb c "@") eqn:Ec.
    + exfalso. apply Hno. left. apply Ascii.eqb_eq in Ec. subst. reflexivity.
    + rewrite IH; [reflexivity|]. intros H. apply Hno. right. exact H.
Qed.

Lemma number_of_chat_id_witness :
  Frontend.before_at "628118491177@c.us" = "628118491177"%string.
Proof.
  apply (number_of_chat_id "628118491177" "c.us").
  simpl. intuition discriminate.
Defined.

(** ** The access list read from the environment *)

Lemma split_not_nil (sep : ascii) (s : string) : Config.split sep s <> [].
Proof.
  destruct s as [|c r]; simpl; [discriminate|].
  destruct (Ascii.eqb c sep); [discriminate|].
  destruct (Config.split sep r); discriminate.
Qed.

Lemma split_length (sep : ascii) (s : string) :
  List.length (Config.split sep s)
    = S (List.length (List.filter (Ascii.eqb sep) (list_ascii_of_string s))).
Proof.
  induction s as [|c r IH]; simpl; [reflexivity|].
  rewrite (Ascii.eqb_sym sep c).
  destruct (Ascii.eqb c sep); simpl; [rewrite IH; reflexivity|].
  destruct (Config.split sep r) as [|h t] eqn:E; [|exact IH].
  exfalso. exact (split_not_nil sep r E).
Qed.

Lemma split_pieces (sep : ascii) (s : string) :
  Forall (fun piece =>
            forall c, In c (list_ascii_of_string piece) ->
                      c <> sep /\ In c (list_ascii_of_string s))
         (Config.split sep s).
Proof.
  induction s as [|c r IH]; simpl.
  - constructor; [intros c []|constructor].
  - destruct (Ascii.eqb c sep) eqn:Ec.
    + constructor; [intros x []|].
      eapply Forall_impl; [exact IH|]. simpl. intros piece H x Hx.
      destruct (H x Hx). split; auto.
    + destruct (Config.split sep r) as [|h t]; simpl.
      * constructor; [|constructor]. simpl. intros x [<-|[]].
        split; [|left; reflexivity]. intros ->. rewrite Ascii.eqb_refl in Ec.
        discriminate.
      * inversion IH as [|? ? Hh Ht]; subst. constructor.
        -- simpl. intros x [<-|Hx].
           ++ split; [|left; reflexivity]. intros ->.
              rewrite Ascii.eqb_refl in Ec. discriminate.
           ++ destruct (Hh x Hx). split; auto.
        -- eapply Forall_impl; [exact Ht|]. simpl. intros piece H x Hx.
           destruct (H x Hx). split; auto.
Qed.

Lemma split_without_separator (sep : ascii) (e : string) :
  ~ In sep (list_ascii_of_string e) -> Config.split sep e = [e].
Proof.
  induction e as [|c r IH]; simpl; intros Hno; [reflexivity|].
  destruct (Ascii.eqb c sep) eqn:Ec.
  - exfalso. apply Hno. left. apply Ascii.eqb_eq. exact Ec.
  - rewrite IH; [reflexivity|]. intros H. apply Hno. right. exact H.
Qed.

Lemma split_app (sep : ascii) (e rest : string) :
  ~ In sep (list_ascii_of_string e) ->
  Config.split sep (e ++ String sep rest) = e :: Config.split sep rest.
Proof.
  induction e as [|c r IH]; simpl; intros Hno.
  - rewrite Ascii.eqb_refl. reflexivity.
  - destruct (Ascii.eqb c sep) eqn:Ec.
    + exfalso. apply Hno. left. apply Ascii.eqb_eq. exact Ec.
    + rewrite IH; [reflexivity|]. intros H. apply Hno. right. exact H.
Qed.

Lemma split_join (sep : ascii) (entries : list string) :
  entries <> [] ->
  Forall (fun e => ~ In sep (list_ascii_of_string e)) entries ->
  Config.split sep (Config.join sep entries) = entries.
Proof.
  induction entries as [|e rest IH]; intros Hne Hall; [contradiction|].
  inversion Hall as [|? ? He Hrest]; subst.
  destruct rest as [|e' rest'].
  - simpl. apply split_without_separator. exact He.
  - change (Config.join sep (e :: e' :: rest'))
      with (e ++ String sep (Config.join sep (e' :: rest')))%string.
    rewrite split_app by exact He. rewrite IH; [reflexivity|discriminate|exact Hrest].
Qed.

Lemma trimEnd_chars (s : string) (c : ascii) :
  In c (list_ascii_of_string (Config.trimEnd s)) -> In c (list_ascii_of_string s).
Proof.
  induction s as [|a r IH]; simpl; [auto|].
  destruct (Config.trimEnd r) as [|b r'] eqn:E.
  - destruct (Frontend.is_space a); simpl; [intros []|].
    intros [H|[]]. left. exact H.
  - simpl. intros [H|H]; [left; exact H | right; apply IH; exact H].
Qed.

Lemma trimStart_chars (s : string) (c : ascii) :
  In c (list_ascii_of_string (Config.trimStart s)) -> In c (list_ascii_of_string s).
Proof.
  induction s as [|a r IH]; simpl; [auto|].
  destruct (Frontend.is_space a); simpl; [intros H; right; apply IH; exact H|].
  auto.
Qed.

Lemma trimEnd_twice (s : string) :
  Config.trimEnd (Config.trimEnd s) = Config.trimEnd s.
Proof.
  induction s as [|a r IH]; simpl; [reflexivity|].
  destruct (Config.trimEnd r) as [|b r'] eqn:E.
  - destruct (Frontend.is_space a) eqn:Ea; simpl; [reflexivity|].
    rewrite Ea. reflexivity.
  - simpl in IH. simpl. destruct (Config.trimEnd r') as [|b' r''] eqn:E'.
    + destruct (Frontend.is_space b) eqn:Eb; [discriminate IH|].
      rewrite IH. reflexivity.
    + rewrite IH. reflexivity.
Qed.

Lemma trimEnd_head (s : string) :
  match s with
  | String c _ =>
      Frontend.is_space c = false ->
      exists r', Config.trimEnd s = String c r'
  | EmptyString => True
  end.
Proof.
  destruct s as [|c r]; [exact I|]. intros Hc. simpl.
  destruct (Config.trimEnd r); [rewrite Hc|]; eauto.
Qed.

Lemma trimStart_head (s : string) :
  match Config.trimStart s with
  | String c _ => Frontend.is_space c = false
  | EmptyString => True
  end.
Proof.
  induction s as [|a r IH]; simpl; [exact I|].
  destruct (Frontend.is_space a) eqn:Ea; [exact IH | exact Ea].
Qed.

Lemma trim_twice (s : string) : Config.trim (Config.trim s) = Config.trim s.
Proof.
  unfold Config.trim.
  pose proof (trimStart_head s) as Hhead.
  destruct (Config.trimStart s) as [|c r] eqn:Es; [reflexivity|].
  destruct (trimEnd_head (String c r) Hhead) as (r' & Hr').
  rewrite Hr'. simpl. rewrite Hhead. rewrite <- Hr'. apply trimEnd_twice.
Qed.

Lemma blank_trims_to_nothing (s : string) :
  Frontend.blank s = true <-> Config.trim s = EmptyString.
Proof.
  unfold Config.trim. induction s as [|c r IH]; simpl; [tauto|].
  destruct (Frontend.is_space c) eqn:Ec; simpl; [exact IH|].
  split; [discriminate|].
  destruct (Config.trimEnd r); [rewrite Ec|]; discriminate.
Qed.

(** X21.  The access list is empty, the bot open to everyone, exactly
    when the variable is unset or empty.  Any other value gives one entry
    more than it has commas, and every entry is trimmed and free of
    commas. *)
Theorem allowed_numbers_of_the_variable (env : option string) :
  (Config.allowedNumbers env = [] <-> env = None \/ env = Some EmptyString) /\
  (forall value, env = Some value -> value <> EmptyString ->
     List.length (Config.allowedNumbers env)
       = S (List.length (List.filter (Ascii.eqb ",")
                                     (list_ascii_of_string value))) /\
     Forall (fun n => Config.trim n = n /\
                      ~ In ","%char (list_ascii_of_string n))
            (Config.allowedNumbers env)).
Proof.
  split.
  - destruct env as [[|c r]|]; unfold Config.allowedNumbers; split.
    + intros _. right. reflexivity.
    + reflexivity.
    + intros H. apply map_eq_nil in H. exfalso.
      exact (split_not_nil "," (String c r) H).
    + intros [H|H]; discriminate.
    + intros _. left. reflexivity.
    + reflexivity.
  - intros value -> Hne. destruct value as [|c r]; [contradiction|].
    unfold Config.allowedNumbers. split.
    + rewrite length_map. apply split_length.
    + apply Forall_map.
      eapply Forall_impl; [exact (split_pieces "," (String c r))|].
      simpl. intros piece Hpiece. split; [apply trim_twice|].
      intros Hin. unfold Config.trim in Hin.
      apply trimEnd_chars, trimStart_chars in Hin.
      destruct (Hpiece _ Hin) as (Hsep & _). contradiction.
Qed.

Lemma allowed_numbers_of_the_variable_witness :
  List.length (Config.allowedNumbers (Some "628118491177, 15550001111"%string)) = 2.
Proof.
  destruct (allowed_numbers_of_the_variable
              (Some "628118491177, 15550001111"%string)) as (_ & H).
  destruct (H "628118491177, 15550001111"%string eq_refl) as (Hlen & _).
  - discriminate.
  - exact Hlen.
Defined.

(** X22.  Writing numbers of ASCII characters into the variable,
    separated by commas, and reading the variable back gives the same
    numbers, trimmed, in the same order; numbers written without
    surrounding white space come back as they are. *)
Theorem allowed_numbers_round_trip (numbers : list string) :
  Config.join "," numbers <> EmptyString ->
  Forall (fun n => ascii_only n = true /\
                   ~ In ","%char (list_ascii_of_string n)) numbers ->
  Config.allowedNumbers (Some (Config.join "," numbers))
    = map Config.trim numbers /\
  (Forall (fun n => Config.trim n = n) numbers ->
   Config.allowedNumbers (Some (Config.join "," numbers)) = numbers).
Proof.
  intros Hne Hall.
  assert (Hcommas : Forall (fun n => ~ In ","%char (list_ascii_of_string n))
                           numbers).
  { eapply Forall_impl; [exact Hall|]. simpl. intros n (_ & Hn). exact Hn. }
  assert (Hparse : Config.allowedNumbers (Some (Config.join "," numbers))
                   = map Config.trim numbers).
  { destruct numbers as [|n rest]; [contradiction|].
    unfold Config.allowedNumbers.
    destruct (Config.join "," (n :: rest)) as [|c r] eqn:Ej; [contradiction|].
    rewrite <- Ej. rewrite split_join; [reflexivity|discriminate|exact Hcommas]. }
  split; [exact Hparse|].
  intros Htrim. rewrite Hparse. clear -Htrim.
  induction Htrim as [|n rest Hn _ IH]; simpl; [reflexivity|].
  rewrite Hn, IH. reflexivity.
Qed.

Lemma allowed_numbers_round_trip_witness :
  Config.allowedNumbers (Some "628118491177,15550001111"%string)
    = ["628118491177"; "15550001111"]%string.
Proof.
  destruct (allowed_numbers_round_trip ["628118491177"; "15550001111"]%string)
    as (_ & H).
  - discriminate.
  - repeat constructor; simpl; intuition discriminate.
  - apply H. repeat constructor.
Defined.

Lemma all_space_blank (s : string) :
  (forall c, In c (list_ascii_of_string s) -> Frontend.is_space c = true) ->
  Frontend.blank s = true.
Proof.
  induction s as [|c r IH]; simpl; intros H; [reflexivity|].
  rewrite (H c (or_introl eq_refl)). simpl. apply IH.
  intros x Hx. apply H. right. exact Hx.
Qed.

(** X23.  A variable that is set but holds only white space and commas
    does not open the bot: every entry of the list is the empty string,
    and the message of any sender with a number is ignored without an
    effect, in both revisions of the handler. *)
Theorem blank_variable_locks_everyone_out
    (value : string) (env : Frontend.Env)
    (m : Frontend.Message) (chat : Frontend.Chat) :
  value <> EmptyString ->
  (forall c, In c (list_ascii_of_string value) ->
             Frontend.is_space c = true \/ c = ","%char) ->
  Frontend.before_at (Frontend.from m) <> EmptyString ->
  Frontend.handleMessage (Config.config (Some value)) env m chat = [] /\
  Frontend.handleMessage_text_only (Config.config (Some value)) env m chat = [].
Proof.
  intros Hne Hchars Hnumber.
  assert (Hentries : forall n, In n (Config.allowedNumbers (Some value)) ->
                               n = EmptyString).
  { destruct value as [|c r]; [contradiction|].
    unfold Config.allowedNumbers. intros n Hn.
    apply in_map_iff in Hn. destruct Hn as (piece & <- & Hpiece).
    apply blank_trims_to_nothing, all_space_blank. intros x Hx.
    pose proof (split_pieces "," (String c r)) as Hall.
    rewrite Forall_forall in Hall.
    destruct (Hall piece (proj2 (list_elem_of_In _ _) Hpiece) x Hx) as (Hsep & Hin).
    destruct (Hchars x Hin); [assumption | contradiction]. }
  assert (Hgate := gate_closed (Config.config (Some value)) (Frontend.from m)).
  unfold Config.config in Hgate. cbn [Frontend.allowedNumbers] in Hgate.
  assert (Hclosed :
            (negb (Nat.eqb (List.length (Config.allowedNumbers (Some value))) 0)
             && negb (Frontend.includes (Config.allowedNumbers (Some value))
                        (Frontend.before_at (Frontend.from m))))%bool = true).
  { apply Hgate.
    - destruct value as [|c r]; [contradiction|]. unfold Config.allowedNumbers.
      intros H. apply map_eq_nil in H. exact (split_not_nil _ _ H).
    - intros Hin. apply Hnumber. apply Hentries. exact Hin. }
  unfold Frontend.handleMessage, Frontend.handleMessage_text_only, Config.config.
  cbn [Frontend.allowedNumbers]. rewrite Hclosed.
  destruct (Frontend.isGroup chat); [split; reflexivity|].
  destruct (_ || _)%bool; [split; reflexivity|].
  destruct (Frontend.fromMe m); [split; reflexivity|].
  destruct (Frontend.blank (Frontend.body m)); split; reflexivity.
Qed.

Lemma blank_variable_locks_everyone_out_witness :
  Frontend.handleMessage (Config.config (Some " "%string)) Sample.echo
    (Sample.hello_from "628118491177@c.us") Sample.private_chat = [].
Proof.
  apply (blank_variable_locks_everyone_out " " Sample.echo
           (Sample.hello_from "628118491177@c.us") Sample.private_chat).
  - discriminate.
  - simpl. intros c [<-|[]]. left. reflexivity.
  - discriminate.
Defined.

(** ** The backend client and the start-up *)

Lemma spread_over_marker (data : gmap string Api.jsval)
    (marker key : string) (v : Api.jsval) :
  (data ∪ {[ marker := v ]}) !! key =
  match data !! key with
  | Some x => Some x
  | None => if decide (marker = key) then Some v else None
  end.
Proof.
  rewrite lookup_union.
  destruct (data !! key) as [x|] eqn:E; simpl.
  - destruct ({[marker := v]} !! key : option Api.jsval); reflexivity.
  - destruct (decide (marker = key)) as [->|Hne].
    + rewrite lookup_singleton_eq. reflexivity.
    + rewrite lookup_singleton_ne by exact Hne. reflexivity.
Qed.


(** X25.  The WhatsApp client is initialised exactly when the health
    request was answered and the body has no [healthy] or a truthy one.
    Otherwise, the request having failed or the body saying [healthy:
    false], [0], [""] or [null], the process stops with exit code 1 right
    after the health check. *)
Theorem startup_needs_a_healthy_backend (health : Api.http) (initialized : bool) :
  let ready :=
    match health with
    | Api.Responded data =>
        match data !! "healthy"%string with
        | Some v => Api.js_truthy v
        | None => true
        end
    | Api.Threw _ => false
    end in
  (In Api.InitializeClient (Api.main health initialized) <-> ready = true) /\
  (ready = false -> Api.main health initialized = [Api.HealthCheck; Api.Exit 1]).
Proof.
  cbv zeta. unfold Api.main.
  assert (Hprop : Api.js_truthy
                    (Api.prop (Api.checkBackendHealth health) "healthy")
                  = match health with
                    | Api.Responded data =>
                        match data !! "healthy"%string with
                        | Some v => Api.js_truthy v
                        | None => true
                        end
                    | Api.Threw _ => false
                    end).
  { destruct health as [data|message]; unfold Api.prop, Api.checkBackendHealth.
    - rewrite spread_over_marker.
      destruct (data !! "healthy"%string); [reflexivity|].
      rewrite decide_True by reflexivity. reflexivity.
    - rewrite lookup_insert_eq. reflexivity. }
  rewrite Hprop.
  destruct (match health with Api.Responded _ => _ | Api.Threw _ => _ end);
    simpl; split.
  - split; [reflexivity | intros _; right; left; reflexivity].
  - discriminate.
  - split; [intros [H|[H|[]]]; discriminate | discriminate].
  - reflexivity.
Qed.

Lemma startup_needs_a_healthy_backend_witness :
  Api.main (Api.Responded Cases.degraded_body) true
    = [Api.HealthCheck; Api.Exit 1].
Proof.
  apply (startup_needs_a_healthy_backend (Api.Responded Cases.degraded_body) true).
  reflexivity.
Defined.

Example startup_with_plain_body :
  Api.main (Api.Responded Cases.healthy_body) true
    = [Api.HealthCheck; Api.InitializeClient; Api.OnSignals; Api.StdinResume].
Proof. reflexivity. Qed.

